(** * ProfileEditPage.jsx: the profile form of the volunteer/NGO platform

    A shallow embedding of [src/pages/ProfileEditPage.jsx].  The pure helpers
    ([normalizeRole], [mapUserToForm], [buildFormData], [isAllowedDocument])
    are functions; the component's [useState] cells are the fields of one
    [State] record and every handler is a computation in a small
    state-and-exception monad, so that [try]/[catch]/[finally] read as in the
    source.  What the network answers is an input of the handler, and a
    handler runs to completion: what another handler would do while
    [handleSubmit] waits at an [await] is not part of its run.

    The first module models the part of the JavaScript platform the page
    relies on: strings, values obtained from [JSON.parse], truthiness,
    [String(v)], and [JSON.stringify] on arrays of strings.

    A third module has the helpers of the requests and of the document
    sections ([buildApiUrl], [getAuthHeaders], [buildDocumentHref],
    [extractFilename], [formatFileSize]) and the conditions under which the
    markup shows a section, a label or a button.  [API_BASE], the URL parser
    and [decodeURIComponent] are parameters there; sizes are exact rationals.

    Not modelled: the rest of the markup, the object URLs of the previews,
    the timer that dismisses the toast, and the routes of [App.jsx]. *)

From Stdlib Require Import String Ascii ZArith NArith List Bool Lia.
From Stdlib Require Import Numbers.DecimalString.
From Stdlib Require QArith Qround.
From stdpp Require Import base option list gmap strings.

#[local] Set Warnings "-register-all".
#[local] Open Scope string_scope.
#[local] Arguments String.append !_ _ / : simpl nomatch.

(* ===================================================================== *)
(** ** The JavaScript platform *)
(* ===================================================================== *)

Module JS.

(** *** Strings

    A JavaScript string is a sequence of UTF-16 code units.  The model is the
    type [string] of the Standard Library, each [ascii] standing for one code
    unit in the range U+0000..U+00FF (the Latin-1 block); code units above
    U+00FF are outside the model. *)

Definition code (c : ascii) : N := N_of_ascii c.

(** WhiteSpace and LineTerminator code points below U+0100, the ones
    [String.prototype.trim] strips: TAB, LF, VT, FF, CR, SP, NBSP. *)
Definition isWhiteSpace (c : ascii) : bool :=
  let n := code c in
  ((9 <=? n) && (n <=? 13) || (n =? 32) || (n =? 160))%N.

(** [String.prototype.toLowerCase] on one code unit: A..Z and the Latin-1
    capitals U+00C0..U+00DE other than the multiplication sign U+00D7. *)
Definition lowerChar (c : ascii) : ascii :=
  let n := code c in
  if ((65 <=? n) && (n <=? 90)
      || (192 <=? n) && (n <=? 222) && negb (n =? 215))%N
  then ascii_of_N (n + 32) else c.

Fixpoint toLowerCase (s : string) : string :=
  match s with
  | EmptyString => EmptyString
  | String c r => String (lowerChar c) (toLowerCase r)
  end.

(** [s.startsWith(p)]. *)
Fixpoint startsWith (s p : string) {struct p} : bool :=
  match p, s with
  | EmptyString, _ => true
  | String _ _, EmptyString => false
  | String a p', String b s' => Ascii.eqb a b && startsWith s' p'
  end.

(** [s.includes(needle)]: [needle] occurs at some position of [s]. *)
Fixpoint includes (s needle : string) : bool :=
  startsWith s needle ||
  match s with
  | EmptyString => false
  | String _ r => includes r needle
  end.

(** [s.endsWith(suffix)]: some tail of [s] is [suffix]. *)
Fixpoint endsWith (s suffix : string) : bool :=
  String.eqb s suffix ||
  match s with
  | EmptyString => false
  | String _ r => endsWith r suffix
  end.

Fixpoint trimStart (s : string) : string :=
  match s with
  | EmptyString => EmptyString
  | String c r => if isWhiteSpace c then trimStart r else s
  end.

Fixpoint trimEnd (s : string) : string :=
  match s with
  | EmptyString => EmptyString
  | String c r =>
      match trimEnd r with
      | EmptyString => if isWhiteSpace c then EmptyString else String c EmptyString
      | r' => String c r'
      end
  end.

(** [s.trim()]. *)
Definition trim (s : string) : string := trimEnd (trimStart s).

(** [s.split(sep)] for a separator of one code unit, as in [split(',')]:
    the pieces between the separators, empty pieces included; the empty
    string splits into one empty piece. *)
Fixpoint split (sep : ascii) (s : string) : list string :=
  match s with
  | EmptyString => [EmptyString]
  | String c r =>
      if Ascii.eqb c sep then EmptyString :: split sep r
      else match split sep r with
           | h :: t => String c h :: t
           | [] => [String c EmptyString]
           end
  end.

(** [pieces.join(sep)] on strings. *)
Fixpoint join (sep : string) (pieces : list string) : string :=
  match pieces with
  | [] => EmptyString
  | [p] => p
  | p :: rest => p ++ sep ++ join sep rest
  end.

(** [Boolean(s)] for a string: the empty string is the only falsy one. *)
Definition nonEmpty (s : string) : bool :=
  match s with EmptyString => false | String _ _ => true end.

(** *** JSON.stringify on strings (QuoteJSONString) *)

Definition hexDigit (n : N) : ascii :=
  ascii_of_N (if (n <? 10)%N then 48 + n else 87 + n).

(** [\uXXXX] with four lowercase hexadecimal digits. *)
Definition unicodeEscape (n : N) : string :=
  "\u" ++ String (hexDigit (n / 4096 mod 16))
            (String (hexDigit (n / 256 mod 16))
              (String (hexDigit (n / 16 mod 16))
                (String (hexDigit (n mod 16)) EmptyString))).

Definition quoteChar (c : ascii) : string :=
  let n := code c in
  if (n =? 8)%N then "\b"
  else if (n =? 9)%N then "\t"
  else if (n =? 10)%N then "\n"
  else if (n =? 12)%N then "\f"
  else if (n =? 13)%N then "\r"
  else if (n =? 34)%N then String "\" (String (ascii_of_N 34) EmptyString)
  else if (n =? 92)%N then "\\"
  else if (n <? 32)%N then unicodeEscape n
  else String c EmptyString.

Fixpoint quoteBody (s : string) : string :=
  match s with
  | EmptyString => EmptyString
  | String c r => quoteChar c ++ quoteBody r
  end.

Definition dquote : string := String (ascii_of_N 34) EmptyString.

(** [JSON.stringify(s)] for a string [s]. *)
Definition quoteJSONString (s : string) : string :=
  dquote ++ quoteBody s ++ dquote.

(** [JSON.stringify(a)] for an array [a] of strings (no indentation). *)
Definition stringifyStrings (a : list string) : string :=
  "[" ++ join "," (map quoteJSONString a) ++ "]".

(** *** Values

    The values the page handles: what [JSON.parse] and [response.json()]
    return, plus [undefined], the result of reading a missing property.

    A number is kept through the two observations the page makes of one: its
    truthiness and its [String(n)] text. *)

Record Number := { numIsFalsy : bool; numText : string }.

(** The number of an integer literal. *)
Definition numOfZ (z : Z) : Number :=
  {| numIsFalsy := (z =? 0)%Z; numText := NilZero.string_of_int (Z.to_int z) |}.

Inductive Value :=
| JUndefined
| JNull
| JBool (b : bool)
| JNum (n : Number)
| JStr (s : string)
| JArr (items : list Value)
| JObj (props : list (string * Value)).

(** [Boolean(v)], the test of [if (v)], [v || w], [v && w] and [v ? a : b]. *)
Definition truthy (v : Value) : bool :=
  match v with
  | JUndefined | JNull => false
  | JBool b => b
  | JNum n => negb (numIsFalsy n)
  | JStr s => nonEmpty s
  | JArr _ | JObj _ => true
  end.

(** [a || b]. *)
Definition logicalOr (a b : Value) : Value := if truthy a then a else b.
Infix "|||" := logicalOr (at level 50, left associativity).

(** [typeof v === 'object']: objects, arrays and [null]. *)
Definition typeofObject (v : Value) : bool :=
  match v with JNull | JArr _ | JObj _ => true | _ => false end.

(** [typeof v === 'string']. *)
Definition typeofString (v : Value) : bool :=
  match v with JStr _ => true | _ => false end.

(** [Array.isArray(v)]. *)
Definition isArray (v : Value) : bool :=
  match v with JArr _ => true | _ => false end.

(** [v === s] for a string literal [s]. *)
Definition strictEqString (v : Value) (s : string) : bool :=
  match v with JStr t => String.eqb t s | _ => false end.

(** The own properties of an object are an association list in which the first
    entry of a key is the property. *)
Fixpoint lookupProp (props : list (string * Value)) (k : string) : Value :=
  match props with
  | [] => JUndefined
  | (k', v) :: rest => if String.eqb k' k then v else lookupProp rest k
  end.

(** [v?.k] for the property names the page reads ([role], [fullName],
    [organization], [message], ...): none of them is a property of arrays,
    of primitives or of [Object.prototype], so the read finds an own property
    of an object or [undefined]; on [null] and [undefined] the optional chain
    gives [undefined]. *)
Definition getProp (v : Value) (k : string) : Value :=
  match v with
  | JObj props => lookupProp props k
  | _ => JUndefined
  end.

(** [String(v)]; an array joins its elements with commas, [null] and
    [undefined] elements giving the empty string. *)
Fixpoint toString (v : Value) : string :=
  match v with
  | JUndefined => "undefined"
  | JNull => "null"
  | JBool true => "true"
  | JBool false => "false"
  | JNum n => numText n
  | JStr s => s
  | JArr items =>
      join "," (map (fun e => match e with
                              | JUndefined | JNull => EmptyString
                              | _ => toString e
                              end) items)
  | JObj _ => "[object Object]"
  end.

(** [items.join(sep)] on an array of values. *)
Definition arrayJoin (sep : string) (items : list Value) : string :=
  join sep (map (fun e => match e with
                          | JUndefined | JNull => EmptyString
                          | _ => toString e
                          end) items).

End JS.

(* ===================================================================== *)
(** ** src/pages/ProfileEditPage.jsx *)
(* ===================================================================== *)

Module ProfileEditPage.
Import JS.

(** *** Exceptions and results *)

(** What a [throw] carries: an [Error] instance with its [message] (the
    [TypeError] and [SyntaxError] of the platform are such instances), or any
    other value. *)
Inductive Exn :=
| ErrorObj (message : string)
| Thrown (v : Value).

Inductive Result (A : Type) :=
| Ok (a : A)
| Throw (e : Exn).
Arguments Ok {A} a.
Arguments Throw {A} e.

#[global] Instance Result_ret : MRet Result := fun A a => Ok a.
#[global] Instance Result_bind : MBind Result := fun A B k r =>
  match r with
  | Ok a => k a
  | Throw e => Throw e
  end.

(** *** The form buffer: a plain object, keyed by field name *)

Abbreviation Form := (gmap string Value).

(** An object literal. *)
Definition object (props : list (string * Value)) : Form := list_to_map props.

(** [form.k]; a missing property reads [undefined]. *)
Definition field (form : Form) (k : string) : Value :=
  default JUndefined (form !! k).

Definition defaultForm : Form :=
  object
    [ ("role", JStr "volunteer");
      ("fullName", JStr "");
      ("email", JStr "");
      ("phone", JStr "");
      ("bio", JStr "");
      ("skills", JStr "");
      ("address", JStr "");
      ("dateOfBirth", JStr "");
      ("profileImageUrl", JStr "");
      ("volunteerDocumentUrl", JStr "");
      ("organizationName", JStr "");
      ("registrationNumber", JStr "");
      ("organizationAddress", JStr "");
      ("organizationWebsite", JStr "");
      ("contactPerson", JStr "");
      ("organizationDescription", JStr "");
      ("ngoProofDocumentUrl", JStr "") ].

(** *** Responses of [fetch] *)

(** A response as the page observes it: [response.ok], the [content-type]
    header ([None] when [headers.get] returns [null]) and what
    [response.json()] settles to ([None] when it rejects). *)
Record Response := {
  ok : bool;
  contentType : option string;
  json : option Value
}.

Definition isJsonResponse (response : Response) : bool :=
  let contentType := default "" (contentType response) in
  includes (toLowerCase contentType) "application/json".

Definition isHtmlResponse (response : Response) : bool :=
  let contentType := default "" (contentType response) in
  includes (toLowerCase contentType) "text/html".

Definition readResponseJson (response : Response) : Value :=
  if negb (isJsonResponse response) then JNull
  else match json response with
       | Some v => v
       | None => JNull
       end.

(** *** Mapping the server's user into the buffer *)

Definition normalizeRole (role : Value) : string :=
  if String.eqb (toLowerCase (toString (role ||| JStr ""))) "ngo"
  then "ngo" else "volunteer".

Definition mapUserToForm (user : Value) : Form :=
  let role := normalizeRole (getProp user "role") in
  let organization := getProp user "organization" in
  object
    [ ("role", JStr role);
      ("fullName", getProp user "fullName" ||| getProp user "name" ||| JStr "");
      ("email", getProp user "email" ||| JStr "");
      ("phone", getProp user "phone" ||| JStr "");
      ("bio", getProp user "bio" ||| JStr "");
      ("skills",
        match getProp user "skills" with
        | JArr items => JStr (arrayJoin ", " items)
        | _ => JStr ""
        end);
      ("address", getProp user "address" ||| JStr "");
      ("dateOfBirth", getProp user "dateOfBirth" ||| getProp user "dob" ||| JStr "");
      ("profileImageUrl",
        getProp user "profileImageUrl" ||| getProp user "avatarUrl" ||| JStr "");
      ("volunteerDocumentUrl",
        getProp user "volunteerDocumentUrl" ||| getProp user "documentUrl"
          ||| getProp user "resumeUrl" ||| JStr "");
      ("organizationName",
        getProp user "organizationName" ||| getProp organization "name" ||| JStr "");
      ("registrationNumber",
        getProp user "registrationNumber" ||| getProp organization "registrationNumber"
          ||| JStr "");
      ("organizationAddress",
        getProp user "organizationAddress" ||| getProp organization "address" ||| JStr "");
      ("organizationWebsite",
        getProp user "organizationWebsite" ||| getProp organization "website" ||| JStr "");
      ("contactPerson",
        getProp user "contactPerson" ||| getProp organization "contactPerson" ||| JStr "");
      ("organizationDescription",
        getProp user "organizationDescription" ||| getProp organization "description"
          ||| JStr "");
      ("ngoProofDocumentUrl",
        getProp user "ngoProofDocumentUrl" ||| getProp organization "proofDocumentUrl"
          ||| JStr "") ].

(** *** The multipart payload *)

(** A [File] as the page reads it: [name], [type] and [size]. *)
Record File := {
  name : string;
  type : string;
  size : N
}.

(** An entry of a [FormData]: a string, or a file. *)
Inductive Entry :=
| Text (s : string)
| Blob (f : File).

(** A [FormData] is the list of its entries in the order of the appends. *)
Abbreviation FormData := (list (string * Entry)).

(** [payload.append(name, value)]. *)
Definition append (payload : FormData) (name : string) (value : Entry) : FormData :=
  payload ++ [(name, value)].

(** [expr.trim()], where [expr] evaluates to [v]: calling a method a value
    does not have throws a [TypeError] (the messages are V8's). *)
Definition callTrim (expr : string) (v : Value) : Result string :=
  match v with
  | JStr s => Ok (trim s)
  | JUndefined | JNull =>
      Throw (ErrorObj ("Cannot read properties of " ++ toString v ++ " (reading 'trim')"))
  | _ => Throw (ErrorObj (expr ++ ".trim is not a function"))
  end.

(** [expr.split(',')], likewise. *)
Definition callSplit (expr : string) (v : Value) : Result (list string) :=
  match v with
  | JStr s => Ok (split "," s)
  | JUndefined | JNull =>
      Throw (ErrorObj ("Cannot read properties of " ++ toString v ++ " (reading 'split')"))
  | _ => Throw (ErrorObj (expr ++ ".split is not a function"))
  end.

Definition buildFormData (form : Form)
    (volunteerDocumentFile ngoProofFile : option File)
    (removeVolunteerDocument removeNgoProofDocument : bool) : Result FormData :=
  let payload : FormData := [] in
  let payload := append payload "role" (Text (toString (field form "role"))) in
  fullName ← callTrim "form.fullName" (field form "fullName");
  let payload := append payload "fullName" (Text fullName) in
  email ← callTrim "form.email" (field form "email");
  let payload := append payload "email" (Text email) in
  phone ← callTrim "form.phone" (field form "phone");
  let payload := append payload "phone" (Text phone) in
  bio ← callTrim "form.bio" (field form "bio");
  let payload := append payload "bio" (Text bio) in
  address ← callTrim "form.address" (field form "address");
  let payload := append payload "address" (Text address) in
  let payload := append payload "dateOfBirth" (Text (toString (field form "dateOfBirth"))) in
  profileImageUrl ← callTrim "form.profileImageUrl" (field form "profileImageUrl");
  let payload := append payload "profileImageUrl" (Text profileImageUrl) in
  payload ←
    (if strictEqString (field form "role") "volunteer" then
       pieces ← callSplit "form.skills" (field form "skills");
       let skills := List.filter nonEmpty (map trim pieces) in
       let payload := append payload "skills" (Text (stringifyStrings skills)) in
       let payload :=
         match volunteerDocumentFile with
         | Some file => append payload "file" (Blob file)
         | None => payload
         end in
       let payload :=
         if removeVolunteerDocument then append payload "removeDocument" (Text "true")
         else payload in
       mret payload
     else mret payload);
  payload ←
    (if strictEqString (field form "role") "ngo" then
       organizationName ← callTrim "form.organizationName" (field form "organizationName");
       let payload := append payload "organizationName" (Text organizationName) in
       registrationNumber ←
         callTrim "form.registrationNumber" (field form "registrationNumber");
       let payload := append payload "registrationNumber" (Text registrationNumber) in
       organizationAddress ←
         callTrim "form.organizationAddress" (field form "organizationAddress");
       let payload := append payload "organizationAddress" (Text organizationAddress) in
       organizationWebsite ←
         callTrim "form.organizationWebsite" (field form "organizationWebsite");
       let payload := append payload "organizationWebsite" (Text organizationWebsite) in
       contactPerson ← callTrim "form.contactPerson" (field form "contactPerson");
       let payload := append payload "contactPerson" (Text contactPerson) in
       organizationDescription ←
         callTrim "form.organizationDescription" (field form "organizationDescription");
       let payload := append payload "organizationDescription" (Text organizationDescription) in
       let payload :=
         match ngoProofFile with
         | Some file => append payload "ngoProofFile" (Blob file)
         | None => payload
         end in
       let payload :=
         if removeNgoProofDocument then append payload "removeNgoProofDocument" (Text "true")
         else payload in
       mret payload
     else mret payload);
  mret payload.

(** *** The component state

    One field per [useState] cell of [ProfileEditPage]. *)

Record State := {
  form : Form;
  loading : bool;
  saving : bool;
  uploadProgress : Z;
  error : string;
  success : string;
  toast : string;
  volunteerDocumentFile : option File;
  ngoProofFile : option File;
  removeVolunteerDocument : bool;
  removeNgoProofDocument : bool
}.

(** The initial values given to [useState]. *)
Definition initialState : State :=
  {| form := defaultForm; loading := true; saving := false; uploadProgress := 0;
     error := ""; success := ""; toast := "";
     volunteerDocumentFile := None; ngoProofFile := None;
     removeVolunteerDocument := false; removeNgoProofDocument := false |}.

(** *** Handlers as computations: state passing with exceptions *)

Definition M (A : Type) : Type := State -> Result A * State.

#[global] Instance M_ret : MRet M := fun A a st => (Ok a, st).
#[global] Instance M_bind : MBind M := fun A B k m st =>
  match m st with
  | (Ok a, st') => k a st'
  | (Throw e, st') => (Throw e, st')
  end.

(** The values of the cells that a handler's closure holds. *)
Definition getState : M State := fun st => (Ok st, st).

Definition modify (f : State -> State) : M unit := fun st => (Ok tt, f st).

Definition throw {A} (e : Exn) : M A := fun st => (Throw e, st).

Definition liftResult {A} (r : Result A) : M A := fun st => (r, st).

(** [try { body } catch (e) { handler e }]. *)
Definition tryCatch {A} (body : M A) (handler : Exn -> M A) : M A := fun st =>
  match body st with
  | (Ok a, st') => (Ok a, st')
  | (Throw e, st') => handler e st'
  end.

(** [try { body } finally { final }]. *)
Definition tryFinally {A} (body : M A) (final : M unit) : M A := fun st =>
  match body st with
  | (r, st') =>
      match final st' with
      | (Ok _, st'') => (r, st'')
      | (Throw e, st'') => (Throw e, st'')
      end
  end.

(** The state a handler leaves. *)
Definition exec {A} (m : M A) (st : State) : State := snd (m st).

(** The setters of the cells. *)

Definition setForm (v : Form) : M unit := modify (fun st =>
  {| form := v; loading := loading st; saving := saving st;
     uploadProgress := uploadProgress st; error := error st; success := success st;
     toast := toast st; volunteerDocumentFile := volunteerDocumentFile st;
     ngoProofFile := ngoProofFile st;
     removeVolunteerDocument := removeVolunteerDocument st;
     removeNgoProofDocument := removeNgoProofDocument st |}).

(** [setForm((previous) => f previous)]. *)
Definition updateForm (f : Form -> Form) : M unit := modify (fun st =>
  {| form := f (form st); loading := loading st; saving := saving st;
     uploadProgress := uploadProgress st; error := error st; success := success st;
     toast := toast st; volunteerDocumentFile := volunteerDocumentFile st;
     ngoProofFile := ngoProofFile st;
     removeVolunteerDocument := removeVolunteerDocument st;
     removeNgoProofDocument := removeNgoProofDocument st |}).

Definition setLoading (v : bool) : M unit := modify (fun st =>
  {| form := form st; loading := v; saving := saving st;
     uploadProgress := uploadProgress st; error := error st; success := success st;
     toast := toast st; volunteerDocumentFile := volunteerDocumentFile st;
     ngoProofFile := ngoProofFile st;
     removeVolunteerDocument := removeVolunteerDocument st;
     removeNgoProofDocument := removeNgoProofDocument st |}).

Definition setSaving (v : bool) : M unit := modify (fun st =>
  {| form := form st; loading := loading st; saving := v;
     uploadProgress := uploadProgress st; error := error st; success := success st;
     toast := toast st; volunteerDocumentFile := volunteerDocumentFile st;
     ngoProofFile := ngoProofFile st;
     removeVolunteerDocument := removeVolunteerDocument st;
     removeNgoProofDocument := removeNgoProofDocument st |}).

Definition setUploadProgress (v : Z) : M unit := modify (fun st =>
  {| form := form st; loading := loading st; saving := saving st;
     uploadProgress := v; error := error st; success := success st;
     toast := toast st; volunteerDocumentFile := volunteerDocumentFile st;
     ngoProofFile := ngoProofFile st;
     removeVolunteerDocument := removeVolunteerDocument st;
     removeNgoProofDocument := removeNgoProofDocument st |}).

Definition setError (v : string) : M unit := modify (fun st =>
  {| form := form st; loading := loading st; saving := saving st;
     uploadProgress := uploadProgress st; error := v; success := success st;
     toast := toast st; volunteerDocumentFile := volunteerDocumentFile st;
     ngoProofFile := ngoProofFile st;
     removeVolunteerDocument := removeVolunteerDocument st;
     removeNgoProofDocument := removeNgoProofDocument st |}).

Definition setSuccess (v : string) : M unit := modify (fun st =>
  {| form := form st; loading := loading st; saving := saving st;
     uploadProgress := uploadProgress st; error := error st; success := v;
     toast := toast st; volunteerDocumentFile := volunteerDocumentFile st;
     ngoProofFile := ngoProofFile st;
     removeVolunteerDocument := removeVolunteerDocument st;
     removeNgoProofDocument := removeNgoProofDocument st |}).

Definition setToast (v : string) : M unit := modify (fun st =>
  {| form := form st; loading := loading st; saving := saving st;
     uploadProgress := uploadProgress st; error := error st; success := success st;
     toast := v; volunteerDocumentFile := volunteerDocumentFile st;
     ngoProofFile := ngoProofFile st;
     removeVolunteerDocument := removeVolunteerDocument st;
     removeNgoProofDocument := removeNgoProofDocument st |}).

Definition setVolunteerDocumentFile (v : option File) : M unit := modify (fun st =>
  {| form := form st; loading := loading st; saving := saving st;
     uploadProgress := uploadProgress st; error := error st; success := success st;
     toast := toast st; volunteerDocumentFile := v;
     ngoProofFile := ngoProofFile st;
     removeVolunteerDocument := removeVolunteerDocument st;
     removeNgoProofDocument := removeNgoProofDocument st |}).

Definition setNgoProofFile (v : option File) : M unit := modify (fun st =>
  {| form := form st; loading := loading st; saving := saving st;
     uploadProgress := uploadProgress st; error := error st; success := success st;
     toast := toast st; volunteerDocumentFile := volunteerDocumentFile st;
     ngoProofFile := v;
     removeVolunteerDocument := removeVolunteerDocument st;
     removeNgoProofDocument := removeNgoProofDocument st |}).

Definition setRemoveVolunteerDocument (v : bool) : M unit := modify (fun st =>
  {| form := form st; loading := loading st; saving := saving st;
     uploadProgress := uploadProgress st; error := error st; success := success st;
     toast := toast st; volunteerDocumentFile := volunteerDocumentFile st;
     ngoProofFile := ngoProofFile st;
     removeVolunteerDocument := v;
     removeNgoProofDocument := removeNgoProofDocument st |}).

Definition setRemoveNgoProofDocument (v : bool) : M unit := modify (fun st =>
  {| form := form st; loading := loading st; saving := saving st;
     uploadProgress := uploadProgress st; error := error st; success := success st;
     toast := toast st; volunteerDocumentFile := volunteerDocumentFile st;
     ngoProofFile := ngoProofFile st;
     removeVolunteerDocument := removeVolunteerDocument st;
     removeNgoProofDocument := v |}).

(** *** The network, as the handlers observe it *)

(** What [await fetch(...)] gives: a rejection (network failure) or a response. *)
Inductive FetchOutcome :=
| FetchRejects (reason : Exn)
| FetchResolves (response : Response).

(** What the [XMLHttpRequest] of a save ends with: the [error] event, or the
    [load] event with the request's [status], [responseText] and
    [content-type] response header ([None] when [getResponseHeader] returns
    [null]).  [JSON.parse] is the platform's: [parsedText] is what
    [JSON.parse(responseText)] returns, [None] when it throws. *)
Record XhrLoad := {
  status : Z;
  responseText : string;
  responseContentType : option string;
  parsedText : option Value
}.

Inductive XhrOutcome :=
| XhrError
| XhrLoaded (request : XhrLoad).

(** An upload [progress] event; [percent] is the value of
    [Math.round((loaded / total) * 100)] as the engine computes it. *)
Record ProgressEvent := {
  lengthComputable : bool;
  percent : Z
}.

(** [JSON.parse(request.responseText)]. *)
Definition JSON_parse (request : XhrLoad) : Result Value :=
  match parsedText request with
  | Some v => Ok v
  | None => Throw (ErrorObj "Unexpected token in JSON")
  end.


(** [await fetch(...)]. *)
Definition awaitFetch (outcome : FetchOutcome) : M Response :=
  match outcome with
  | FetchRejects reason => throw reason
  | FetchResolves response => mret response
  end.

(** [requestError instanceof Error ? requestError.message : fallback]. *)
Definition messageOr (requestError : Exn) (fallback : string) : string :=
  match requestError with
  | ErrorObj message => message
  | Thrown _ => fallback
  end.

Definition when (b : bool) (m : M unit) : M unit := if b then m else mret tt.

(** *** Loading the profile on mount

    [mounted] is the value of the effect's [mounted] variable when the
    request settles. *)
Definition loadCurrentProfile (mounted : bool) (outcome : FetchOutcome) : M unit :=
  setLoading true ;;
  setError "" ;;
  tryFinally
    (tryCatch
       (response ← awaitFetch outcome;
        when (negb (ok response))
          (if isHtmlResponse response
           then throw (ErrorObj "API not reachable. Set VITE_API_BASE_URL to your backend URL.")
           else throw (ErrorObj "Unable to fetch profile details.")) ;;
        let user := readResponseJson response in
        when (negb (truthy user) || negb (typeofObject user))
          (throw (ErrorObj "Invalid profile data from server.")) ;;
        when mounted
          (setForm (mapUserToForm user) ;;
           setVolunteerDocumentFile None ;;
           setNgoProofFile None ;;
           setRemoveVolunteerDocument false ;;
           setRemoveNgoProofDocument false))
       (fun requestError =>
          when mounted (setError (messageOr requestError "Failed to load profile data."))))
    (when mounted (setLoading false)).

(** [roleLabel], the text of the role pill. *)
Definition roleLabel (st : State) : string :=
  if strictEqString (field (form st) "role") "ngo" then "NGO" else "Volunteer".

(** *** Editing *)

(** [handleChange]: [name] and [value] are those of [event.target]. *)
Definition handleChange (name : string) (value : string) : M unit :=
  updateForm (fun previous => <[name := JStr value]> previous).

(** The [name] attributes of the inputs bound to [handleChange]. *)
Definition inputNames : list string :=
  [ "fullName"; "email"; "phone"; "bio"; "address"; "dateOfBirth"; "skills";
    "organizationName"; "registrationNumber"; "organizationAddress";
    "organizationWebsite"; "contactPerson"; "organizationDescription" ].

(** *** Attaching and removing documents *)

Definition allowedMimeTypes : list string :=
  [ "application/pdf"; "application/msword";
    "application/vnd.openxmlformats-officedocument.wordprocessingml.document" ].

Definition isAllowedDocument (file : File) : bool :=
  let lowerName := toLowerCase (name file) in
  existsb (String.eqb (type file)) allowedMimeTypes
  || endsWith lowerName ".pdf" || endsWith lowerName ".doc" || endsWith lowerName ".docx".

(** The file input of an event, [event.target]: its list of selected files
    and its [value]. *)
Record FileInput := {
  files : list File;
  value : string
}.

(** [event.target.value = ''] on a file input empties its selection. *)
Definition clearValue (target : FileInput) : FileInput :=
  {| files := []; value := "" |}.

(** The handlers return the input element as they leave it. *)
Definition handleVolunteerFileChange (target : FileInput) : M FileInput :=
  match head (files target) with
  | None => mret target
  | Some file =>
      if negb (isAllowedDocument file) then
        setError "Please upload a PDF or DOC file only." ;;
        mret (clearValue target)
      else
        setError "" ;;
        setVolunteerDocumentFile (Some file) ;;
        setRemoveVolunteerDocument false ;;
        mret target
  end.

Definition handleNgoProofChange (target : FileInput) : M FileInput :=
  match head (files target) with
  | None => mret target
  | Some file =>
      if negb (isAllowedDocument file) then
        setError "Please upload a PDF or DOC file only." ;;
        mret (clearValue target)
      else
        setError "" ;;
        setNgoProofFile (Some file) ;;
        setRemoveNgoProofDocument false ;;
        mret target
  end.

Definition handleRemoveVolunteerFile : M unit :=
  setVolunteerDocumentFile None ;;
  updateForm (fun previous => <["volunteerDocumentUrl" := JStr ""]> previous) ;;
  setRemoveVolunteerDocument true.

Definition handleRemoveNgoProofFile : M unit :=
  setNgoProofFile None ;;
  updateForm (fun previous => <["ngoProofDocumentUrl" := JStr ""]> previous) ;;
  setRemoveNgoProofDocument true.

(** The conditions under which the two [Remove File] buttons are rendered. *)
Definition volunteerRemoveRendered (st : State) : bool :=
  strictEqString (field (form st) "role") "volunteer"
  && (truthy (field (form st) "volunteerDocumentUrl")
      || bool_decide (is_Some (volunteerDocumentFile st))).

Definition ngoRemoveRendered (st : State) : bool :=
  strictEqString (field (form st) "role") "ngo"
  && (truthy (field (form st) "ngoProofDocumentUrl")
      || bool_decide (is_Some (ngoProofFile st))).

(** *** Saving *)

(** What one submission meets: the upload progress events, how the [PUT]
    request ends, and how the follow-up [GET] settles. *)
Record SubmitEnv := {
  progressEvents : list ProgressEvent;
  putOutcome : XhrOutcome;
  reconcileOutcome : FetchOutcome
}.

(** [request.upload.onprogress]. *)
Definition onprogress (progressEvent : ProgressEvent) : M unit :=
  if negb (lengthComputable progressEvent) then mret tt
  else setUploadProgress (percent progressEvent).

Fixpoint forEach {A} (f : A -> M unit) (l : list A) : M unit :=
  match l with
  | [] => mret tt
  | x :: rest => f x ;; forEach f rest
  end.

(** The object [onload] resolves the promise with. *)
Record SaveResponse := {
  save_ok : bool;
  save_status : Z;
  save_text : string;
  save_contentType : string;
  save_request : XhrLoad
}.

(** [response.text ? JSON.parse(response.text) : null] inside [try], with
    [catch] giving [null]. *)
Definition parseOrNull (response : SaveResponse) : Value :=
  if nonEmpty (save_text response) then
    match JSON_parse (save_request response) with
    | Ok v => v
    | Throw _ => JNull
    end
  else JNull.

(** The payload the executor of the promise builds, from the cells the
    closure of [handleSubmit] holds. *)
Definition submittedPayload (closure : State) : Result FormData :=
  buildFormData (form closure) (volunteerDocumentFile closure) (ngoProofFile closure)
    (removeVolunteerDocument closure) (removeNgoProofDocument closure).

(** [await new Promise(...)]: the executor builds the payload (a throw there
    rejects the promise) and sends it; progress events follow, and the request
    ends with [error] or [load]. *)
Definition awaitSave (closure : State) (env : SubmitEnv) : M SaveResponse :=
  formData ← liftResult (submittedPayload closure);
  forEach onprogress (progressEvents env) ;;
  match putOutcome env with
  | XhrError => throw (ErrorObj "Network error while updating profile.")
  | XhrLoaded request =>
      mret {| save_ok := (200 <=? status request)%Z && (status request <? 300)%Z;
              save_status := status request;
              save_text := responseText request;
              save_contentType := default "" (responseContentType request);
              save_request := request |}
  end.

(** The first four statements of [handleSubmit], before its [try]. *)
Definition submitStart : M unit :=
  setError "" ;;
  setSuccess "" ;;
  setSaving true ;;
  setUploadProgress 0.

(** The body of the [try] of [handleSubmit]. *)
Definition submitTry (closure : State) (env : SubmitEnv) : M unit :=
  response ← awaitSave closure env;
  when (negb (save_ok response))
    (when (includes (toLowerCase (save_contentType response)) "text/html")
       (throw (ErrorObj "API not reachable. Set VITE_API_BASE_URL to your backend URL.")) ;;
     let body := parseOrNull response in
     let serverMessage :=
       if truthy body && typeofObject body && typeofString (getProp body "message")
       then getProp body "message" else JNull in
     when (truthy serverMessage) (throw (ErrorObj (toString serverMessage))) ;;
     throw (ErrorObj "Profile update failed. Please try again.")) ;;
  let updatedUser := parseOrNull response in
  when (truthy updatedUser && typeofObject updatedUser)
    (setForm (mapUserToForm updatedUser)) ;;
  tryCatch
    (latestProfileResponse ← awaitFetch (reconcileOutcome env);
     when (ok latestProfileResponse)
       (let latestUser := readResponseJson latestProfileResponse in
        when (truthy latestUser && typeofObject latestUser)
          (setForm (mapUserToForm latestUser))))
    (fun _ => mret tt) ;;
  setVolunteerDocumentFile None ;;
  setNgoProofFile None ;;
  setRemoveVolunteerDocument false ;;
  setRemoveNgoProofDocument false ;;
  setSuccess "Your profile has been updated successfully." ;;
  setToast "Profile updated successfully.".

(** [handleSubmit], for a submission that meets [env]. *)
Definition handleSubmit (env : SubmitEnv) : M unit :=
  closure ← getState;
  submitStart ;;
  tryFinally
    (tryCatch
       (submitTry closure env)
       (fun requestError => setError (messageOr requestError "Unable to update profile.")))
    (setSaving false ;;
     setUploadProgress 0).

(** *** Sessions

    What happens to the page, one handler run after the other: the load on
    mount, an edit of a named input, a choice in one of the two file inputs,
    a click on one of the two [Remove File] buttons, a submission. *)
Inductive Op :=
| Load (mounted : bool) (outcome : FetchOutcome)
| Change (name value : string)
| SelectVolunteerFile (target : FileInput)
| SelectNgoProof (target : FileInput)
| RemoveVolunteerFile
| RemoveNgoProofFile
| Submit (env : SubmitEnv).

Definition run (op : Op) (st : State) : State :=
  match op with
  | Load mounted outcome => exec (loadCurrentProfile mounted outcome) st
  | Change name value => exec (handleChange name value) st
  | SelectVolunteerFile target => exec (handleVolunteerFileChange target) st
  | SelectNgoProof target => exec (handleNgoProofChange target) st
  | RemoveVolunteerFile => exec handleRemoveVolunteerFile st
  | RemoveNgoProofFile => exec handleRemoveNgoProofFile st
  | Submit env => exec (handleSubmit env) st
  end.

(** An edit comes from one of the inputs bound to [handleChange]. *)
Definition possible (op : Op) : Prop :=
  match op with
  | Change name _ => In name inputNames
  | _ => True
  end.

Inductive reachable : State -> Prop :=
| reachable_initial : reachable initialState
| reachable_run op st : reachable st -> possible op -> reachable (run op st).

End ProfileEditPage.

(* ===================================================================== *)
(** ** The helpers of the page: URLs, headers, file names and sizes *)
(* ===================================================================== *)

Module Helpers.
Import JS ProfileEditPage.

(** *** More of the platform *)

(** [s.slice(0, -1)]: the string without its last code unit. *)
Fixpoint dropLast (s : string) : string :=
  match s with
  | EmptyString => EmptyString
  | String c EmptyString => EmptyString
  | String c r => String c (dropLast r)
  end.

(** The last element of an array of strings, as [a.pop()] returns it and as
    [a[a.length - 1]] reads it: [undefined] ([None]) when the array is
    empty. *)
Fixpoint pop (a : list string) : option string :=
  match a with
  | [] => None
  | [x] => Some x
  | _ :: rest => pop rest
  end.

(** [String(n)] for a non-negative integer. *)
Definition decimal (n : N) : string := NilZero.string_of_uint (N.to_uint n).

(** [x.toFixed(1)] for a non-negative [x] below 10^21: the integer [n] for
    which [n / 10] is nearest to [x], the larger one of two, written with a
    point before its last digit. *)
Definition toFixed1 (x : QArith_base.Q) : string :=
  let half := QArith_base.Qmake 1 2 in
  let n := Z.to_N (Qround.Qfloor
                     (QArith_base.Qplus (QArith_base.Qmult x (QArith_base.inject_Z 10)) half)) in
  decimal (n / 10) ++ "." ++ decimal (n mod 10).

(** [/^https?:\/\//i.test(s)]: [s] begins with [http://] or [https://] in
    any case. *)
Definition isHttpUrl (s : string) : bool :=
  startsWith (toLowerCase s) "http://" || startsWith (toLowerCase s) "https://".

(** *** Requests *)

Section WithApiBase.

(** [API_BASE], the value of [import.meta.env.VITE_API_BASE_URL || '']. *)
Variable API_BASE : string.

Definition buildApiUrl (path : string) : string :=
  if nonEmpty API_BASE then API_BASE ++ path else path.

(** [getAuthHeaders]: [token] is what [localStorage.getItem('token')]
    returns, [None] for [null]; the headers are listed in the order of the
    object's properties. *)
Definition getAuthHeaders (includeJsonContentType : bool) (token : option string)
    : list (string * string) :=
  ((if includeJsonContentType then [("Content-Type", "application/json")] else [])
   ++ (if nonEmpty (default "" token)
       then [("Authorization", ("Bearer " ++ default "" token)%string)] else []))%list.

(** A request as the page issues it. *)
Record Request := {
  method : string;
  url : string;
  headers : list (string * string)
}.

(** The [fetch] of the load and of the follow-up read, and the
    [XMLHttpRequest] of the save with the headers given to
    [setRequestHeader]. *)
Definition readRequest (token : option string) : Request :=
  {| method := "GET"; url := buildApiUrl "/users/me";
     headers := getAuthHeaders true token |}.

Definition saveRequest (token : option string) : Request :=
  {| method := "PUT"; url := buildApiUrl "/users/me";
     headers := getAuthHeaders false token |}.

(** *** Links to documents *)

(** [documentUrl.startsWith('/')]: a [TypeError] on a value that is not a
    string (the message is V8's). *)
Definition callStartsWith (expr : string) (v : Value) (p : string) : Result bool :=
  match v with
  | JStr s => Ok (startsWith s p)
  | JUndefined | JNull =>
      Throw (ErrorObj ("Cannot read properties of " ++ toString v
                       ++ " (reading 'startsWith')"))
  | _ => Throw (ErrorObj (expr ++ ".startsWith is not a function"))
  end.

Definition buildDocumentHref (documentUrl : Value) : Result Value :=
  if negb (truthy documentUrl) then Ok (JStr "")
  else if isHttpUrl (toString documentUrl) then Ok documentUrl
  else if negb (nonEmpty API_BASE) then Ok documentUrl
  else
    let normalizedBase := if endsWith API_BASE "/" then dropLast API_BASE else API_BASE in
    rooted ← callStartsWith "documentUrl" documentUrl "/";
    Ok (JStr (if rooted : bool
              then normalizedBase ++ toString documentUrl
              else normalizedBase ++ "/" ++ toString documentUrl)).

End WithApiBase.

(** *** File names *)

Section WithUrlParser.

(** [new URL(s).pathname], [None] when the constructor throws (the text is
    not an absolute URL), and [decodeURIComponent(s)], [None] when it throws
    a [URIError]: both are the platform's. *)
Variable pathnameOf : string -> option string.
Variable decodeURIComponent : string -> option string.

(** The [catch] branch of [extractFilename]. *)
Definition lastSegment (urlOrName : Value) : string :=
  match pop (split "/" (toString urlOrName)) with
  | Some (String c r) => String c r
  | _ => "document"
  end.

Definition extractFilename (urlOrName : Value) : string :=
  if negb (truthy urlOrName) then EmptyString
  else
    match pathnameOf (toString urlOrName) with
    | None => lastSegment urlOrName
    | Some pathname =>
        let parts := List.filter nonEmpty (split "/" pathname) in
        let name := match pop parts with
                    | Some (String c r) => String c r
                    | _ => "document"
                    end in
        match decodeURIComponent name with
        | Some decoded => decoded
        | None => lastSegment urlOrName
        end
    end.

End WithUrlParser.

(** *** File sizes *)

(** [formatFileSize(file.size)]: the size of a file is a non-negative
    integer.  Below 2^53 the quotients by 1024 are exact in double precision;
    they are rationals here. *)
Definition formatFileSize (bytes : N) : string :=
  if (bytes =? 0)%N then EmptyString
  else if (bytes <? 1024)%N then decimal bytes ++ " B"
  else
    let kb := QArith_base.Qdiv (QArith_base.inject_Z (Z.of_N bytes))
                               (QArith_base.inject_Z 1024) in
    if negb (QArith_base.Qle_bool (QArith_base.inject_Z 1024) kb)
    then toFixed1 kb ++ " KB"
    else toFixed1 (QArith_base.Qdiv kb (QArith_base.inject_Z 1024)) ++ " MB".

(** *** What a document section shows *)

(** The label of the file input of a slot, and whether the line of the
    current file names a file, from the URL field of the slot. *)
Definition uploadLabel (documentUrl : Value) : string :=
  if truthy documentUrl then "Replace File" else "Upload File".

Definition showsCurrentFile (documentUrl : Value) : bool := truthy documentUrl.

(** Which of the two role sections the form renders. *)
Definition volunteerSectionRendered (st : State) : bool :=
  strictEqString (field (form st) "role") "volunteer".

Definition ngoSectionRendered (st : State) : bool :=
  strictEqString (field (form st) "role") "ngo".

End Helpers.

(* ===================================================================== *)
(** ** Vocabulary of the properties *)
(* ===================================================================== *)

Import JS ProfileEditPage Helpers.

(** *** Payloads *)

(** The names of a payload's entries, in order, and [payload.getAll(name)]. *)
Definition entryNames (payload : FormData) : list string := map fst payload.

Definition getAll (payload : FormData) (name : string) : list Entry :=
  map snd (List.filter (fun entry => String.eqb (fst entry) name) payload).

(** The names of the payload's fields: the common ones, the volunteer's
    and the NGO's. *)
Definition commonNames : list string :=
  [ "role"; "fullName"; "email"; "phone"; "bio"; "address"; "dateOfBirth";
    "profileImageUrl" ].

Definition volunteerNames : list string := [ "skills"; "file"; "removeDocument" ].

Definition ngoTextNames : list string :=
  [ "organizationName"; "registrationNumber"; "organizationAddress";
    "organizationWebsite"; "contactPerson"; "organizationDescription" ].

Definition ngoNames : list string :=
  (ngoTextNames ++ [ "ngoProofFile"; "removeNgoProofDocument" ])%list.

(** [[x]] when a file is selected, when a flag is set; nothing otherwise. *)
Definition ifSelected {A} (file : option File) (x : A) : list A :=
  match file with Some _ => [x] | None => [] end.

Definition ifSet {A} (flag : bool) (x : A) : list A :=
  if flag then [x] else [].

(** The buffer fields whose [trim] or [split] method the payload builder
    calls, for the role of the buffer. *)
Definition methodFields (form : Form) : list string :=
  ([ "fullName"; "email"; "phone"; "bio"; "address"; "profileImageUrl" ]
   ++ (if strictEqString (field form "role") "volunteer" then ["skills"] else [])
   ++ (if strictEqString (field form "role") "ngo" then ngoTextNames else []))%list.

(** The skills entries of a text: its comma-separated pieces, each trimmed,
    the empty ones dropped. *)
Definition skillEntries (pieces : list string) : list string :=
  List.filter nonEmpty (map trim pieces).

(** The payload's volunteer part and its NGO part. *)
Definition volunteerPart (skills : string) (file : option File) (remove : bool) : FormData :=
  ("skills", Text (stringifyStrings (skillEntries (split "," skills))))
  :: (match file with Some f => [("file", Blob f)] | None => [] end
      ++ (if remove then [("removeDocument", Text "true")] else []))%list.

Definition ngoPart (organizationName registrationNumber organizationAddress
    organizationWebsite contactPerson organizationDescription : string)
    (file : option File) (remove : bool) : FormData :=
  ([ ("organizationName", Text (trim organizationName));
    ("registrationNumber", Text (trim registrationNumber));
    ("organizationAddress", Text (trim organizationAddress));
    ("organizationWebsite", Text (trim organizationWebsite));
    ("contactPerson", Text (trim contactPerson));
    ("organizationDescription", Text (trim organizationDescription)) ]
  ++ match file with Some f => [("ngoProofFile", Blob f)] | None => [] end
  ++ (if remove then [("removeNgoProofDocument", Text "true")] else []))%list.

(** *** Strings *)

(** The characters of a string; a string free of a character; a string
    made of white space only; a string with no white space at either end. *)
Definition chars (s : string) : list ascii := list_ascii_of_string s.

Definition freeOf (c : ascii) (s : string) : Prop := ~ In c (chars s).

Definition blank (s : string) : Prop :=
  Forall (fun c => isWhiteSpace c = true) (chars s).

Definition tight (s : string) : Prop :=
  (forall c r, s = String c r -> isWhiteSpace c = false)
  /\ (forall r c, s = r ++ String c EmptyString -> isWhiteSpace c = false).

(** A string between double quotes. *)
Definition quoted (s : string) : string :=
  String (ascii_of_N 34) s ++ String (ascii_of_N 34) EmptyString.

(** A character that [JSON.stringify] copies as it is: no control character,
    no double quote, no backslash. *)
Definition plainChar (c : ascii) : Prop :=
  (32 <= code c)%N /\ code c <> 34%N /\ code c <> 92%N.

(** [name] ends in [ext]. *)
Definition hasExtension (fileName ext : string) : Prop :=
  exists stem, fileName = stem ++ ext.

(** The extensions of the allow-list. *)
Definition documentExtensions : list string := [ ".pdf"; ".doc"; ".docx" ].

(** The spellings of [ngo] in upper and lower case. *)
Definition ngoSpellings : list string :=
  [ "ngo"; "ngO"; "nGo"; "nGO"; "Ngo"; "NgO"; "NGo"; "NGO" ].

(** *** The mapping of the user *)

Definition isString (v : Value) : Prop := exists s, v = JStr s.

(** A value that is a string, [null] or [undefined] (an absent property). *)
Definition stringOrAbsent (v : Value) : Prop :=
  isString v \/ v = JNull \/ v = JUndefined.

(** The first truthy value of a list, or [JStr ""] when there is none. *)
Definition firstTruthy (candidates : list Value) : Value :=
  match List.find truthy candidates with
  | Some v => v
  | None => JStr ""
  end.

(** The source fields recognized for each buffer field copied from the
    server's user ([role] and [skills] are computed, not copied). *)
Definition recognized (user : Value) (k : string) : list Value :=
  let organization := getProp user "organization" in
  if String.eqb k "fullName" then [getProp user "fullName"; getProp user "name"]
  else if String.eqb k "email" then [getProp user "email"]
  else if String.eqb k "phone" then [getProp user "phone"]
  else if String.eqb k "bio" then [getProp user "bio"]
  else if String.eqb k "address" then [getProp user "address"]
  else if String.eqb k "dateOfBirth" then [getProp user "dateOfBirth"; getProp user "dob"]
  else if String.eqb k "profileImageUrl"
    then [getProp user "profileImageUrl"; getProp user "avatarUrl"]
  else if String.eqb k "volunteerDocumentUrl"
    then [getProp user "volunteerDocumentUrl"; getProp user "documentUrl";
          getProp user "resumeUrl"]
  else if String.eqb k "organizationName"
    then [getProp user "organizationName"; getProp organization "name"]
  else if String.eqb k "registrationNumber"
    then [getProp user "registrationNumber"; getProp organization "registrationNumber"]
  else if String.eqb k "organizationAddress"
    then [getProp user "organizationAddress"; getProp organization "address"]
  else if String.eqb k "organizationWebsite"
    then [getProp user "organizationWebsite"; getProp organization "website"]
  else if String.eqb k "contactPerson"
    then [getProp user "contactPerson"; getProp organization "contactPerson"]
  else if String.eqb k "organizationDescription"
    then [getProp user "organizationDescription"; getProp organization "description"]
  else if String.eqb k "ngoProofDocumentUrl"
    then [getProp user "ngoProofDocumentUrl"; getProp organization "proofDocumentUrl"]
  else [].

(** The buffer fields copied from the user. *)
Definition copiedFields : list string :=
  [ "fullName"; "email"; "phone"; "bio"; "address"; "dateOfBirth"; "profileImageUrl";
    "volunteerDocumentUrl"; "organizationName"; "registrationNumber";
    "organizationAddress"; "organizationWebsite"; "contactPerson";
    "organizationDescription"; "ngoProofDocumentUrl" ].

(** All the fields of the buffer. *)
Definition formFields : list string := "role" :: "skills" :: copiedFields.

(** A value that is an object or an array: [v && typeof v === 'object']. *)
Definition wellFormed (v : Value) : bool := truthy v && typeofObject v.

(** *** Document slots *)

(** A document slot: its remote reference (the URL field of the buffer), its
    locally selected file and its removal flag. *)
Record Slot := {
  reference : Value;
  staged : option File;
  removal : bool
}.

Definition volunteerSlot (st : State) : Slot :=
  {| reference := field (form st) "volunteerDocumentUrl";
     staged := volunteerDocumentFile st;
     removal := removeVolunteerDocument st |}.

Definition ngoSlot (st : State) : Slot :=
  {| reference := field (form st) "ngoProofDocumentUrl";
     staged := ngoProofFile st;
     removal := removeNgoProofDocument st |}.

(** How many of a slot's three indications are active: a remote reference
    (a truthy URL field), a locally selected file, the removal flag. *)
Definition activeCount (slot : Slot) : nat :=
  (if truthy (reference slot) then 1 else 0)
  + (match staged slot with Some _ => 1 | None => 0 end)
  + (if removal slot then 1 else 0).

(** A raised removal flag excludes a remote reference and a selected file. *)
Definition removalExclusive (slot : Slot) : Prop :=
  removal slot = true -> truthy (reference slot) = false /\ staged slot = None.

(** The state after a session, from the initial state. *)
Definition after (session : list Op) : State :=
  fold_left (fun st op => run op st) session initialState.

(** *** Submissions *)

(** What a computation returns. *)
Definition result {A} (m : M A) (st : State) : Result A := fst (m st).

(** The state a failed submission leaves: the message in [error], nothing
    else changed but [success], [saving] and the progress. *)
Definition failed (message : string) (st : State) : State :=
  {| form := form st; loading := loading st; saving := false; uploadProgress := 0;
     error := message; success := ""; toast := toast st;
     volunteerDocumentFile := volunteerDocumentFile st;
     ngoProofFile := ngoProofFile st;
     removeVolunteerDocument := removeVolunteerDocument st;
     removeNgoProofDocument := removeNgoProofDocument st |}.

(** The state a successful submission leaves, with [buffer] as the form. *)
Definition saved (buffer : Form) (st : State) : State :=
  {| form := buffer; loading := loading st; saving := false; uploadProgress := 0;
     error := ""; success := "Your profile has been updated successfully.";
     toast := "Profile updated successfully.";
     volunteerDocumentFile := None; ngoProofFile := None;
     removeVolunteerDocument := false; removeNgoProofDocument := false |}.

(** The request succeeded: its status is in 200..299. *)
Definition successStatus (request : XhrLoad) : Prop :=
  (200 <= status request < 300)%Z.

(** The response of a save says it is HTML. *)
Definition htmlContentType (request : XhrLoad) : Prop :=
  exists pre post,
    toLowerCase (default "" (responseContentType request)) = pre ++ "text/html" ++ post.

(** The body of the response parses as a JSON object whose [message] is the
    string [m]. *)
Definition bodyMessage (request : XhrLoad) (m : string) : Prop :=
  responseText request <> EmptyString
  /\ exists props, parsedText request = Some (JObj props)
                   /\ lookupProp props "message" = JStr m.

(** The three messages of a rejected save. *)
Definition apiNotReachable : string :=
  "API not reachable. Set VITE_API_BASE_URL to your backend URL.".

Definition updateFailed : string := "Profile update failed. Please try again.".

(** The buffer after the response of a successful save: the mapped body when
    it is well formed, the buffer as it was otherwise. *)
Definition bufferAfterSave (request : XhrLoad) (st : State) : Form :=
  match parsedText request with
  | Some body =>
      if nonEmpty (responseText request) && wellFormed body
      then mapUserToForm body else form st
  | None => form st
  end.

(** The buffer a successful submission ends with: the mapped user of the
    follow-up read when that read gives one, the buffer after the response of
    the save otherwise. *)
Definition finalBuffer (request : XhrLoad) (outcome : FetchOutcome) (st : State) : Form :=
  match outcome with
  | FetchResolves response =>
      if ok response && wellFormed (readResponseJson response)
      then mapUserToForm (readResponseJson response)
      else bufferAfterSave request st
  | FetchRejects _ => bufferAfterSave request st
  end.

(** The ways the follow-up read fails: the request is rejected, the status
    is not OK, or the body is malformed (not announced as JSON, not
    parseable, or not an object). *)
Inductive reconcileFails : FetchOutcome -> Prop :=
| reconcile_rejected reason : reconcileFails (FetchRejects reason)
| reconcile_not_ok response :
    ok response = false -> reconcileFails (FetchResolves response)
| reconcile_not_json response :
    isJsonResponse response = false -> reconcileFails (FetchResolves response)
| reconcile_unparseable response :
    json response = None -> reconcileFails (FetchResolves response)
| reconcile_not_object response v :
    json response = Some v -> wellFormed v = false ->
    reconcileFails (FetchResolves response).

(** The follow-up read succeeds: an OK response whose JSON body is an object
    or an array. *)
Definition reconciles (outcome : FetchOutcome) (user : Value) : Prop :=
  exists response,
    outcome = FetchResolves response /\ ok response = true
    /\ isJsonResponse response = true /\ json response = Some user
    /\ wellFormed user = true.

(** The request of a submission, when it ended with [load]. *)
Definition loadedRequest (env : SubmitEnv) : option XhrLoad :=
  match putOutcome env with
  | XhrLoaded request => Some request
  | XhrError => None
  end.

(** *** Examples *)

(** The text [["Teaching","Event Management","Fundraising"]]. *)
Definition exampleSkillsJSON : string :=
  "[" ++ quoted "Teaching" ++ "," ++ quoted "Event Management" ++ ","
      ++ quoted "Fundraising" ++ "]".

(** The skills text of the specification's example, and a buffer of a
    volunteer who typed it. *)
Definition exampleSkillsText : string := "Teaching, Event Management,  Fundraising,, ".

Definition exampleVolunteerForm : Form :=
  <["skills" := JStr exampleSkillsText]> (<["fullName" := JStr "Asha Rao"]> defaultForm).

(** A loaded page whose buffer is the volunteer's of the example. *)
Definition exampleState : State :=
  {| form := exampleVolunteerForm; loading := false; saving := false; uploadProgress := 0;
     error := ""; success := ""; toast := "";
     volunteerDocumentFile := None; ngoProofFile := None;
     removeVolunteerDocument := false; removeNgoProofDocument := false |}.

(** A file input holding one file named [resume.exe], and one holding
    [resume.pdf]. *)
Definition resumeExe : FileInput :=
  {| files := [ {| name := "resume.exe"; type := "application/x-msdownload";
                   size := 73802 |} ];
     value := "C:\fakepath\resume.exe" |}.

Definition resumePdf : FileInput :=
  {| files := [ {| name := "Resume.PDF"; type := EmptyString; size := 48211 |} ];
     value := "C:\fakepath\Resume.PDF" |}.

(** A loaded page of a volunteer with an uploaded document, and a state of an
    NGO in which a proof document is selected, and a volunteer file too. *)
Definition volunteerWithDocument : State :=
  {| form := mapUserToForm (JObj [ ("role", JStr "Volunteer");
                                   ("name", JStr "Asha Rao");
                                   ("email", JStr "asha@example.org");
                                   ("skills", JArr [JStr "Teaching"; JStr "First Aid"]);
                                   ("resumeUrl", JStr "/uploads/asha-cv.pdf") ]);
     loading := false; saving := false; uploadProgress := 0;
     error := ""; success := ""; toast := "";
     volunteerDocumentFile := None; ngoProofFile := None;
     removeVolunteerDocument := false; removeNgoProofDocument := false |}.

Definition ngoWithProof : State :=
  {| form := mapUserToForm (JObj [ ("role", JStr "NGO");
                                   ("name", JStr "Green Hands");
                                   ("organization",
                                     JObj [ ("name", JStr " Green Hands Trust ");
                                            ("website", JStr "https://greenhands.example") ]);
                                   ("skills", JArr [JStr "ignored"]) ]);
     loading := false; saving := false; uploadProgress := 0;
     error := ""; success := ""; toast := "";
     volunteerDocumentFile := head (files resumePdf);
     ngoProofFile := head (files resumePdf);
     removeVolunteerDocument := false; removeNgoProofDocument := false |}.

(** A save answered with status 400 and the JSON body
    [{"message":"Email already in use"}]. *)
Definition emailInUse : SubmitEnv :=
  {| progressEvents := [ {| lengthComputable := true; percent := 100 |} ];
     putOutcome :=
       XhrLoaded
         {| status := 400;
            responseText := "{" ++ quoted "message" ++ ":" ++ quoted "Email already in use" ++ "}";
            responseContentType := Some "application/json; charset=utf-8";
            parsedText := Some (JObj [("message", JStr "Email already in use")]) |};
     reconcileOutcome := FetchRejects (ErrorObj "Failed to fetch") |}.

(** A save answered with status 400 and the JSON body [{"message":""}]. *)
Definition emptyMessage : SubmitEnv :=
  {| progressEvents := [];
     putOutcome :=
       XhrLoaded
         {| status := 400;
            responseText := "{" ++ quoted "message" ++ ":" ++ quoted "" ++ "}";
            responseContentType := Some "application/json";
            parsedText := Some (JObj [("message", JStr "")]) |};
     reconcileOutcome := FetchRejects (ErrorObj "Failed to fetch") |}.

(** A save answered with status 200 and the updated user, followed by a
    follow-up read that is rejected. *)
Definition savedThenOffline : SubmitEnv :=
  {| progressEvents := [ {| lengthComputable := false; percent := 0 |};
                         {| lengthComputable := true; percent := 100 |} ];
     putOutcome :=
       XhrLoaded
         {| status := 200;
            responseText := "{" ++ quoted "fullName" ++ ":" ++ quoted "Asha R." ++ "}";
            responseContentType := Some "application/json";
            parsedText := Some (JObj [("fullName", JStr "Asha R.")]) |};
     reconcileOutcome := FetchRejects (ErrorObj "Failed to fetch") |}.

(** A session: the load finds a volunteer with an uploaded document, and the
    volunteer then chooses a replacement file. *)
Definition replacementSession : list Op :=
  [ Load true
      (FetchResolves
         {| ok := true; contentType := Some "application/json";
            json := Some (JObj [ ("role", JStr "volunteer");
                                 ("fullName", JStr "Asha Rao");
                                 ("volunteerDocumentUrl", JStr "/uploads/asha-cv.pdf") ]) |});
    SelectVolunteerFile resumePdf ].

(** *** Loads and edits *)

(** The state a failed load leaves on a mounted page: the message in
    [error], [loading] lowered, nothing else changed. *)
Definition loadFailed (message : string) (st : State) : State :=
  {| form := form st; loading := false; saving := saving st;
     uploadProgress := uploadProgress st; error := message; success := success st;
     toast := toast st; volunteerDocumentFile := volunteerDocumentFile st;
     ngoProofFile := ngoProofFile st;
     removeVolunteerDocument := removeVolunteerDocument st;
     removeNgoProofDocument := removeNgoProofDocument st |}.

(** The state a load leaves when the page was unmounted before the request
    settled: the two writes that precede the request, nothing else. *)
Definition loadAbandoned (st : State) : State :=
  {| form := form st; loading := true; saving := saving st;
     uploadProgress := uploadProgress st; error := ""; success := success st;
     toast := toast st; volunteerDocumentFile := volunteerDocumentFile st;
     ngoProofFile := ngoProofFile st;
     removeVolunteerDocument := removeVolunteerDocument st;
     removeNgoProofDocument := removeNgoProofDocument st |}.

(** The state a successful load leaves. *)
Definition loaded (user : Value) (st : State) : State :=
  {| form := mapUserToForm user; loading := false; saving := saving st;
     uploadProgress := uploadProgress st; error := ""; success := success st;
     toast := toast st; volunteerDocumentFile := None; ngoProofFile := None;
     removeVolunteerDocument := false; removeNgoProofDocument := false |}.

(** The cells of the state other than the buffer. *)
Definition cells (st : State) :=
  (loading st, saving st, uploadProgress st, error st, success st, toast st,
   volunteerDocumentFile st, ngoProofFile st, removeVolunteerDocument st,
   removeNgoProofDocument st).

(** *** Progress *)

(** The percentage of the last progress event whose total is known, [start]
    when there is none. *)
Definition lastKnownPercent (start : Z) (events : list ProgressEvent) : Z :=
  fold_left (fun shown event => if lengthComputable event then percent event else shown)
            events start.

(** The state with another progress value. *)
Definition withProgress (n : Z) (st : State) : State :=
  {| form := form st; loading := loading st; saving := saving st;
     uploadProgress := n; error := error st; success := success st;
     toast := toast st; volunteerDocumentFile := volunteerDocumentFile st;
     ngoProofFile := ngoProofFile st;
     removeVolunteerDocument := removeVolunteerDocument st;
     removeNgoProofDocument := removeNgoProofDocument st |}.

(** The fields of the buffer that belong to the volunteer's section and to
    the NGO's, the two URL fields included. *)
Definition volunteerOnlyFields : list string := [ "skills"; "volunteerDocumentUrl" ].

Definition ngoOnlyFields : list string := (ngoTextNames ++ [ "ngoProofDocumentUrl" ])%list.

(** A loaded page whose buffer came from a user with a numeric phone. *)
Definition numericPhoneState : State :=
  {| form := mapUserToForm (JObj [ ("fullName", JStr "Asha");
                                   ("phone", JNum (numOfZ 9876543210)) ]);
     loading := false; saving := false; uploadProgress := 0;
     error := ""; success := ""; toast := "";
     volunteerDocumentFile := None; ngoProofFile := None;
     removeVolunteerDocument := false; removeNgoProofDocument := false |}.

(** A skill as the server stores one: not empty, no white space at either
    end, no comma. *)
Definition cleanSkill (e : string) : Prop :=
  e <> EmptyString /\ tight e /\ freeOf "," e.

(** The user of [volunteerWithDocument]. *)
Definition ashaUser : Value :=
  JObj [ ("role", JStr "Volunteer");
         ("name", JStr "Asha Rao");
         ("email", JStr "asha@example.org");
         ("skills", JArr [JStr "Teaching"; JStr "First Aid"]);
         ("resumeUrl", JStr "/uploads/asha-cv.pdf") ].

(** The buffer has a role that is one of the two, and a skills text. *)
Definition bufferShape (st : State) : Prop :=
  (field (form st) "role" = JStr "volunteer" \/ field (form st) "role" = JStr "ngo")
  /\ isString (field (form st) "skills").

(** *** Names, sizes and padded texts *)

(** A number of tenths as [toFixed(1)] writes it. *)
Definition tenths (n : N) : string := decimal (n / 10) ++ "." ++ decimal (n mod 10).

(** The name [extractFilename] reads in the path of a URL: the last
    non-empty segment, [document] when there is none. *)
Definition pathName (pathname : string) : string :=
  match pop (List.filter nonEmpty (split "/" pathname)) with
  | Some (String c r) => String c r
  | _ => "document"
  end.

(** For the examples: a URL parser that knows one origin, which is the
    platform's on that origin followed by a path of plain characters and on a
    text with no scheme; and a decoder that leaves a name without a percent
    sign as it is and refuses any other, which is the platform's on a name
    without a percent sign and on a percent sign that no two hexadecimal
    digits follow. *)
Definition pathnameAt (origin : string) (s : string) : option string :=
  if startsWith s origin
  then Some (String.substring (String.length origin)
               (String.length s - String.length origin) s)
  else None.

Definition decodePlain (s : string) : option string :=
  if includes s "%" then None else Some s.

(** The common fields of the payload that are sent trimmed. *)
Definition trimmedNames : list string :=
  [ "fullName"; "email"; "phone"; "bio"; "address"; "profileImageUrl" ].

(** A buffer in which a name was typed with spaces around it. *)
Definition paddedNameForm : Form :=
  <["dateOfBirth" := JStr " 1990-04-12"]> (<["fullName" := JStr "  Asha Rao "]> defaultForm).

(** *** Three claims in their original wording *)

(** The mapping claim in its original wording: every field but [role] is
    always a string. *)
Definition mapping_always_strings : Prop :=
  forall user : Value,
    (field (mapUserToForm user) "role" = JStr "volunteer"
     \/ field (mapUserToForm user) "role" = JStr "ngo")
    /\ (forall k, In k ("skills" :: copiedFields) -> isString (field (mapUserToForm user) k))
    /\ (isArray (getProp user "skills") = false ->
        field (mapUserToForm user) "skills" = JStr "").

(** The claim on the error of a rejected save in its original wording: a
    message field that is a string is always the error shown. *)
Definition message_always_shown : Prop :=
  forall (env : SubmitEnv) (st : State) (p : FormData) (request : XhrLoad),
    submittedPayload st = Ok p ->
    putOutcome env = XhrLoaded request ->
    ~ successStatus request ->
    (htmlContentType request -> error (exec (handleSubmit env) st) = apiNotReachable)
    /\ (~ htmlContentType request ->
        forall m, bodyMessage request m -> error (exec (handleSubmit env) st) = m)
    /\ (~ htmlContentType request -> (forall m, ~ bodyMessage request m) ->
        error (exec (handleSubmit env) st) = updateFailed).

(** The slot invariant in its original wording: at most one indication is
    active in every reachable state. *)
Definition at_most_one_active : Prop :=
  forall st, reachable st ->
    activeCount (volunteerSlot st) <= 1 /\ activeCount (ngoSlot st) <= 1.

(* ===================================================================== *)
(** ** Properties *)
(* ===================================================================== *)

(** *** Objects and fields *)

Lemma field_object (props : list (string * Value)) (k : string) :
  field (object props) k = lookupProp props k.
Proof.
  unfold field, object.
  induction props as [|[k' v] rest IH]; simpl.
  - by rewrite lookup_empty.
  - destruct (String.eqb_spec k' k) as [->|Hne].
    + by rewrite lookup_insert_eq.
    + by rewrite lookup_insert_ne.
Qed.

Lemma object_is_Some (props : list (string * Value)) (k : string) :
  is_Some (object props !! k) <-> In k (map fst props).
Proof.
  unfold object. induction props as [|[k' v] rest IH]; simpl.
  - rewrite lookup_empty. split; [intros [? ?]; discriminate | tauto].
  - destruct (decide (k' = k)) as [->|Hne].
    + rewrite lookup_insert_eq. split; eauto.
    + rewrite lookup_insert_ne by done. rewrite IH. split; [tauto | intros [?|?]; done].
Qed.

Lemma firstTruthy_string (candidates : list Value) :
  Forall stringOrAbsent candidates -> isString (firstTruthy candidates).
Proof.
  unfold firstTruthy. induction 1 as [|v rest Hv _ IH]; simpl.
  - by exists "".
  - destruct (truthy v) eqn:Ht; [|exact IH].
    destruct Hv as [Hs|[->| ->]]; [exact Hs | discriminate | discriminate].
Qed.

Lemma firstTruthy_none (candidates : list Value) :
  Forall (fun v => truthy v = false) candidates -> firstTruthy candidates = JStr "".
Proof.
  unfold firstTruthy. induction 1 as [|v rest Hv _ IH]; simpl; [done|].
  by rewrite Hv.
Qed.

Lemma mapUserToForm_copied (user : Value) (k : string) :
  In k copiedFields -> field (mapUserToForm user) k = firstTruthy (recognized user k).
Proof.
  intros Hk. unfold mapUserToForm. rewrite field_object.
  unfold copiedFields in Hk. simpl in Hk.
  repeat (destruct Hk as [<-|Hk]; [
    cbn [lookupProp recognized String.eqb Ascii.eqb Bool.eqb andb];
    unfold logicalOr, firstTruthy; cbn [List.find];
    repeat match goal with
           | H : truthy ?v = _ |- context [truthy ?v] => rewrite H
           | |- context [truthy (getProp ?u ?p)] => destruct (truthy (getProp u p)) eqn:?
           end;
    reflexivity |]).
  destruct Hk.
Qed.

Lemma mapUserToForm_role (user : Value) :
  field (mapUserToForm user) "role" = JStr (normalizeRole (getProp user "role")).
Proof. unfold mapUserToForm. rewrite field_object. reflexivity. Qed.

Lemma mapUserToForm_skills (user : Value) :
  field (mapUserToForm user) "skills"
  = match getProp user "skills" with
    | JArr items => JStr (arrayJoin ", " items)
    | _ => JStr ""
    end.
Proof. unfold mapUserToForm. rewrite field_object. reflexivity. Qed.

Lemma mapUserToForm_fields (user : Value) (k : string) :
  is_Some (mapUserToForm user !! k) <-> In k formFields.
Proof.
  unfold mapUserToForm. rewrite object_is_Some.
  unfold formFields, copiedFields. cbn [map fst In].
  split; intros H; repeat (destruct H as [H|H]; [subst k; tauto|]); destruct H.
Qed.

Lemma normalizeRole_cases (role : Value) :
  normalizeRole role = "ngo" \/ normalizeRole role = "volunteer".
Proof. unfold normalizeRole. destruct (String.eqb _ "ngo"); auto. Qed.

(** *** The mapping of the server's user into the buffer *)

(** A user whose [phone] is a JSON number: the buffer's [phone] is that
    number, and building the payload from this buffer throws. *)
Lemma mapUserToForm_number_phone :
  let user := JObj [("fullName", JStr "Asha"); ("phone", JNum (numOfZ 9876543210))] in
  field (mapUserToForm user) "phone" = JNum {| numIsFalsy := false; numText := "9876543210" |}
  /\ buildFormData (mapUserToForm user) None None false false
     = Throw (ErrorObj "form.phone.trim is not a function").
Proof. split; vm_compute; reflexivity. Qed.



(** *** Role normalization *)

Lemma lowerChar_n (c : ascii) :
  lowerChar c = "n"%char -> c = "n"%char \/ c = "N"%char.
Proof.
  destruct c as [[] [] [] [] [] [] [] []]; vm_compute; intros H;
    first [discriminate H | auto].
Qed.

Lemma lowerChar_g (c : ascii) :
  lowerChar c = "g"%char -> c = "g"%char \/ c = "G"%char.
Proof.
  destruct c as [[] [] [] [] [] [] [] []]; vm_compute; intros H;
    first [discriminate H | auto].
Qed.

Lemma lowerChar_o (c : ascii) :
  lowerChar c = "o"%char -> c = "o"%char \/ c = "O"%char.
Proof.
  destruct c as [[] [] [] [] [] [] [] []]; vm_compute; intros H;
    first [discriminate H | auto].
Qed.

Lemma toLowerCase_ngo (s : string) :
  toLowerCase s = "ngo" <-> In s ngoSpellings.
Proof.
  split.
  - destruct s as [|a [|b [|c [|d r]]]]; simpl; intros H; try discriminate H.
    injection H as Ha Hb Hc.
    destruct (lowerChar_n a Ha) as [-> | ->], (lowerChar_g b Hb) as [-> | ->],
      (lowerChar_o c Hc) as [-> | ->]; tauto.
  - unfold ngoSpellings. simpl.
    intros H. repeat (destruct H as [<-|H]; [reflexivity|]). destruct H.
Qed.

Lemma load_success (st : State) (response : Response) :
  ok response = true ->
  truthy (readResponseJson response) = true ->
  typeofObject (readResponseJson response) = true ->
  let st' := exec (loadCurrentProfile true (FetchResolves response)) st in
  form st' = mapUserToForm (readResponseJson response)
  /\ volunteerDocumentFile st' = None /\ ngoProofFile st' = None
  /\ removeVolunteerDocument st' = false /\ removeNgoProofDocument st' = false
  /\ loading st' = false /\ error st' = "".
Proof.
  intros Hok Ht Ho.
  unfold exec, loadCurrentProfile, tryFinally, tryCatch, awaitFetch, when.
  unfold mbind, M_bind, mret, M_ret. simpl.
  rewrite Hok, Ht, Ho. simpl. repeat split; reflexivity.
Qed.


(** A load of [{role: 'NGO'}] shows the pill 'NGO'; a load of a user with no
    role shows 'Volunteer'. *)
Example role_pill_examples :
  let response (user : Value) :=
    {| ok := true; contentType := Some "application/json; charset=utf-8";
       json := Some user |} in
  roleLabel (exec (loadCurrentProfile true
                     (FetchResolves (response (JObj [("role", JStr "NGO")]))))
               initialState) = "NGO"
  /\ roleLabel (exec (loadCurrentProfile true
                        (FetchResolves (response (JObj [("email", JStr "a@b.org")]))))
                  initialState) = "Volunteer".
Proof. split; vm_compute; reflexivity. Qed.

(** *** Strings *)

Lemma startsWith_spec (s p : string) :
  startsWith s p = true <-> exists post, s = p ++ post.
Proof.
  revert s. induction p as [|a p IH]; intros s; simpl.
  - split; [intros _; by exists s | reflexivity].
  - destruct s as [|b s].
    + split; [discriminate | intros [post H]; discriminate H].
    + rewrite andb_true_iff, IH. split.
      * intros [Hab [post ->]]. apply Ascii.eqb_eq in Hab as ->. eauto.
      * intros [post H]. injection H as -> ->. split; [apply Ascii.eqb_refl | eauto].
Qed.

Lemma includes_spec (s needle : string) :
  includes s needle = true <-> exists pre post, s = pre ++ needle ++ post.
Proof.
  induction s as [|c r IH].
  - cbn [includes]. rewrite orb_false_r, startsWith_spec. split.
    + intros [post H]. exists EmptyString, post. exact H.
    + intros (pre & post & H). destruct pre; [eauto | discriminate H].
  - cbn [includes]. rewrite orb_true_iff, startsWith_spec, IH. split.
    + intros [[post H] | (pre & post & ->)].
      * exists EmptyString, post. exact H.
      * exists (String c pre), post. reflexivity.
    + intros (pre & post & H). destruct pre as [|x pre]; simpl in H.
      * left. eauto.
      * injection H as -> ->. right. eauto.
Qed.

Lemma endsWith_spec (s suffix : string) :
  endsWith s suffix = true <-> exists pre, s = pre ++ suffix.
Proof.
  induction s as [|c r IH].
  - cbn [endsWith]. rewrite orb_false_r, String.eqb_eq. split.
    + intros <-. by exists EmptyString.
    + intros [pre H]. destruct pre; [exact H | discriminate H].
  - cbn [endsWith]. rewrite orb_true_iff, String.eqb_eq, IH. split.
    + intros [<- | [pre ->]]; [by exists EmptyString | by exists (String c pre)].
    + intros [pre H]. destruct pre as [|x pre]; simpl in H.
      * left. exact H.
      * injection H as -> ->. right. eauto.
Qed.

Lemma split_nonempty (sep : ascii) (s : string) : split sep s <> [].
Proof.
  induction s as [|c r IH]; simpl; [discriminate|].
  destruct (Ascii.eqb c sep); [discriminate|].
  destruct (split sep r); [contradiction | discriminate].
Qed.

Lemma join_cons (sep p : string) (rest : list string) :
  rest <> [] -> join sep (p :: rest) = p ++ sep ++ join sep rest.
Proof. destruct rest; [contradiction | reflexivity]. Qed.

(** Joining the pieces of a split with the separator gives the string back. *)
Lemma join_split (sep : ascii) (s : string) :
  join (String sep EmptyString) (split sep s) = s.
Proof.
  induction s as [|c r IH]; [reflexivity|].
  cbn [split]. destruct (Ascii.eqb_spec c sep) as [->|Hne].
  - rewrite join_cons by apply split_nonempty. simpl. by rewrite IH.
  - pose proof (split_nonempty sep r) as Hn.
    destruct (split sep r) as [|h t]; [contradiction|].
    destruct t as [|h' t'].
    + simpl in *. by rewrite IH.
    + rewrite join_cons by discriminate. rewrite join_cons in IH by discriminate.
      change (String c h ++ String sep EmptyString ++ join (String sep EmptyString) (h' :: t'))
        with (String c (h ++ String sep EmptyString ++ join (String sep EmptyString) (h' :: t'))).
      by rewrite IH.
Qed.

(** No piece of a split contains the separator. *)
Lemma split_free (sep : ascii) (s : string) : Forall (freeOf sep) (split sep s).
Proof.
  induction s as [|c r IH]; cbn [split].
  - constructor; [|constructor]. intros [].
  - destruct (Ascii.eqb_spec c sep) as [->|Hne].
    + constructor; [intros [] | exact IH].
    + destruct (split sep r) as [|h t]; [constructor; [|constructor]|].
      * intros [H|[]]. congruence.
      * inversion IH as [|? ? Hh Ht]; subst. constructor; [|exact Ht].
        intros [H|H]; [congruence | exact (Hh H)].
Qed.

(** The split is the only list of separator-free pieces that joins back to
    the string. *)
Lemma split_unique (sep : ascii) (pieces : list string) :
  pieces <> [] -> Forall (freeOf sep) pieces ->
  split sep (join (String sep EmptyString) pieces) = pieces.
Proof.
  induction pieces as [|p rest IH]; [contradiction|]. intros _ Hfree.
  inversion Hfree as [|? ? Hp Hrest]; subst.
  destruct rest as [|q rest'].
  - clear IH Hrest Hfree. cbn [join].
    induction p as [|c r IHp]; [reflexivity|].
    cbn [split]. destruct (Ascii.eqb_spec c sep) as [->|Hne].
    + exfalso. apply Hp. left. reflexivity.
    + rewrite IHp; [reflexivity|]. intros H. apply Hp. right. exact H.
  - rewrite join_cons by discriminate.
    specialize (IH ltac:(discriminate) Hrest).
    set (tl := join (String sep EmptyString) (q :: rest')) in *.
    clear Hfree. induction p as [|c r IHp].
    + change (EmptyString ++ String sep EmptyString ++ tl) with (String sep tl).
      cbn [split]. rewrite Ascii.eqb_refl. by rewrite IH.
    + change (String c r ++ String sep EmptyString ++ tl)
        with (String c (r ++ String sep EmptyString ++ tl)).
      cbn [split]. destruct (Ascii.eqb_spec c sep) as [->|Hne].
      * exfalso. apply Hp. left. reflexivity.
      * rewrite IHp; [reflexivity|]. intros H. apply Hp. right. exact H.
Qed.

Lemma blank_cons (c : ascii) (s : string) :
  isWhiteSpace c = true -> blank s -> blank (String c s).
Proof. intros Hc Hs. constructor; assumption. Qed.

(** [trimStart] removes a blank prefix and leaves no white space in front. *)
Lemma trimStart_spec (s : string) :
  exists l, s = l ++ trimStart s /\ blank l
            /\ (forall c r, trimStart s = String c r -> isWhiteSpace c = false).
Proof.
  induction s as [|c r (l & Hl & Hb & Hh)].
  - exists EmptyString. repeat split; [constructor | discriminate].
  - cbn [trimStart]. destruct (isWhiteSpace c) eqn:Hc.
    + exists (String c l). split; [simpl; congruence|].
      split; [by apply blank_cons | exact Hh].
    + exists EmptyString. split; [reflexivity|]. split; [constructor|].
      intros c' r' H. injection H as <- <-. exact Hc.
Qed.

(** [trimEnd] removes a blank suffix, leaves no white space at the end and
    keeps the front of the string. *)
Lemma trimEnd_spec (s : string) :
  exists r, s = trimEnd s ++ r /\ blank r
            /\ (forall r' c, trimEnd s = r' ++ String c EmptyString -> isWhiteSpace c = false)
            /\ (forall c r', trimEnd s = String c r' -> exists r'', s = String c r'').
Proof.
  induction s as [|c s (r & Hr & Hb & Hlast & Hhead)].
  - exists EmptyString. split; [reflexivity|]. split; [constructor|].
    split; [intros [|? ?] ? H; discriminate H | discriminate].
  - cbn [trimEnd]. destruct (trimEnd s) as [|d t] eqn:Ht.
    + destruct (isWhiteSpace c) eqn:Hc.
      * exists (String c r). simpl in *. split; [congruence|].
        split; [by apply blank_cons|]. split; [intros [|? ?] ? H; discriminate H | discriminate].
      * exists r. simpl in *. split; [congruence|]. split; [exact Hb|]. split.
        -- intros [|x [|? ?]] y H; simpl in H; try discriminate H.
           injection H as <-. exact Hc.
        -- intros c' r' H. injection H as <- <-. eauto.
    + exists r. split; [simpl in *; congruence|]. split; [exact Hb|]. split.
      * intros [|x r'] y H; simpl in H; [discriminate H|].
        injection H as <- H. exact (Hlast r' y H).
      * intros c' r' H. injection H as <- <-. eauto.
Qed.

(** [trim] removes a blank prefix and a blank suffix, and what is left has no
    white space at either end. *)
Lemma trim_spec (s : string) :
  exists l r, s = l ++ trim s ++ r /\ blank l /\ blank r /\ tight (trim s).
Proof.
  unfold trim.
  destruct (trimStart_spec s) as (l & Hl & Hbl & Hhead).
  destruct (trimEnd_spec (trimStart s)) as (r & Hr & Hbr & Hlast & Hkeep).
  exists l, r. split; [congruence|]. split; [exact Hbl|]. split; [exact Hbr|].
  split; [|exact Hlast].
  intros c t H. destruct (Hkeep c t H) as [t' Ht']. exact (Hhead c t' Ht').
Qed.

Lemma nonEmpty_true (s : string) : nonEmpty s = true <-> s <> EmptyString.
Proof. destruct s; simpl; split; congruence. Qed.

(** *** The multipart payload *)

Lemma strictEqString_true (v : Value) (s : string) :
  strictEqString v s = true <-> v = JStr s.
Proof.
  destruct v; simpl; try (split; [discriminate | intros H; discriminate H]).
  rewrite String.eqb_eq. split; congruence.
Qed.

Lemma callTrim_Ok (expr : string) (v : Value) (t : string) :
  callTrim expr v = Ok t <-> exists s, v = JStr s /\ t = trim s.
Proof.
  split.
  - destruct v; simpl; intros H; try discriminate H.
    injection H as <-. eauto.
  - intros (s & -> & ->). reflexivity.
Qed.

Lemma callSplit_Ok (expr : string) (v : Value) (l : list string) :
  callSplit expr v = Ok l <-> exists s, v = JStr s /\ l = split "," s.
Proof.
  split.
  - destruct v; simpl; intros H; try discriminate H.
    injection H as <-. eauto.
  - intros (s & -> & ->). reflexivity.
Qed.

Lemma bind_Ok {A B} (m : Result A) (k : A -> Result B) (b : B) :
  (m ≫= k) = Ok b <-> exists a, m = Ok a /\ k a = Ok b.
Proof.
  destruct m as [a|e]; simpl; split.
  - eauto.
  - intros (a' & H & Hk). by injection H as <-.
  - discriminate.
  - intros (a' & H & _). discriminate H.
Qed.

(** What a built payload is made of. *)
Ltac invert_trim H :=
  let H' := fresh "Hrest" in
  let Hf := fresh "Hfield" in
  apply bind_Ok in H as (? & (? & Hf & ->)%callTrim_Ok & H');
  rename H' into H; cbv beta zeta in H.

Lemma buildFormData_Ok (form : Form) (vf nf : option File) (rv rn : bool) (p : FormData) :
  buildFormData form vf nf rv rn = Ok p <->
  exists fullName email phone bio address profileImageUrl vpart npart,
    field form "fullName" = JStr fullName /\ field form "email" = JStr email
    /\ field form "phone" = JStr phone /\ field form "bio" = JStr bio
    /\ field form "address" = JStr address
    /\ field form "profileImageUrl" = JStr profileImageUrl
    /\ (if strictEqString (field form "role") "volunteer"
        then exists skills, field form "skills" = JStr skills
                            /\ vpart = volunteerPart skills vf rv
        else vpart = [])
    /\ (if strictEqString (field form "role") "ngo"
        then exists a b c d e f,
               field form "organizationName" = JStr a
               /\ field form "registrationNumber" = JStr b
               /\ field form "organizationAddress" = JStr c
               /\ field form "organizationWebsite" = JStr d
               /\ field form "contactPerson" = JStr e
               /\ field form "organizationDescription" = JStr f
               /\ npart = ngoPart a b c d e f nf rn
        else npart = [])
    /\ p = ([ ("role", Text (toString (field form "role")));
             ("fullName", Text (trim fullName));
             ("email", Text (trim email));
             ("phone", Text (trim phone));
             ("bio", Text (trim bio));
             ("address", Text (trim address));
             ("dateOfBirth", Text (toString (field form "dateOfBirth")));
             ("profileImageUrl", Text (trim profileImageUrl)) ] ++ vpart ++ npart)%list.
Proof.
  unfold buildFormData, append, volunteerPart, ngoPart, skillEntries. split.
  - intros H. cbv beta zeta in H.
    do 6 invert_trim H.
    apply bind_Ok in H as (p1 & H1 & H').
    apply bind_Ok in H' as (p2 & H2 & H). cbv beta delta [mret Result_ret] in H; injection H as <-.
    do 6 eexists. 
    destruct (strictEqString (field form "role") "volunteer").
    + apply bind_Ok in H1 as (pieces & (skills & Hs & ->)%callSplit_Ok & H1').
      cbv beta zeta in H1'. rename H1' into H1.
      cbv beta delta [mret Result_ret] in H1; injection H1 as <-.
      destruct (strictEqString (field form "role") "ngo").
      * do 6 invert_trim H2.
        cbv beta delta [mret Result_ret] in H2; injection H2 as <-.
        do 2 eexists. repeat (split; [eassumption|]).
        split; [eexists; split; [eassumption | reflexivity]|].
        split; [do 6 eexists; repeat (split; [eassumption|]); reflexivity|].
        destruct vf, nf, rv, rn; reflexivity.
      * cbv beta delta [mret Result_ret] in H2; injection H2 as <-.
        do 2 eexists. repeat (split; [eassumption|]).
        split; [eexists; split; [eassumption | reflexivity]|].
        split; [reflexivity|].
        destruct vf, rv; reflexivity.
    + cbv beta delta [mret Result_ret] in H1; injection H1 as <-.
      destruct (strictEqString (field form "role") "ngo").
      * do 6 invert_trim H2.
        cbv beta delta [mret Result_ret] in H2; injection H2 as <-.
        do 2 eexists. repeat (split; [eassumption|]).
        split; [reflexivity|].
        split; [do 6 eexists; repeat (split; [eassumption|]); reflexivity|].
        destruct nf, rn; reflexivity.
      * cbv beta delta [mret Result_ret] in H2; injection H2 as <-.
        do 2 eexists. repeat (split; [eassumption|]).
        split; [reflexivity|]. split; reflexivity.
  - intros (fullName & email & phone & bio & address & profileImageUrl & vpart & npart
            & -> & -> & -> & -> & -> & -> & Hv & Hn & ->).
    cbn [callTrim mbind Result_bind mret Result_ret].
    destruct (strictEqString (field form "role") "volunteer").
    + destruct Hv as (skills & -> & ->).
      cbn [callSplit mbind Result_bind mret Result_ret].
      destruct (strictEqString (field form "role") "ngo").
      * destruct Hn as (a & b & c & d & e & f & -> & -> & -> & -> & -> & -> & ->).
        cbn [callTrim mbind Result_bind mret Result_ret].
        destruct vf, nf, rv, rn; reflexivity.
      * subst npart. destruct vf, rv; reflexivity.
    + subst vpart. cbn [mbind Result_bind mret Result_ret].
      destruct (strictEqString (field form "role") "ngo").
      * destruct Hn as (a & b & c & d & e & f & -> & -> & -> & -> & -> & -> & ->).
        cbn [callTrim mbind Result_bind mret Result_ret].
        destruct nf, rn; reflexivity.
      * subst npart. reflexivity.
Qed.

(** The payload is built exactly when the fields whose methods are called
    are strings. *)
Lemma buildFormData_total (form : Form) (vf nf : option File) (rv rn : bool) :
  (forall k, In k (methodFields form) -> isString (field form k))
  <-> exists p, buildFormData form vf nf rv rn = Ok p.
Proof.
  unfold methodFields. split.
  - intros Hstr.
    assert (Hc : forall k, In k ["fullName"; "email"; "phone"; "bio"; "address";
                                 "profileImageUrl"] -> isString (field form k))
      by (intros k Hk; apply Hstr, in_or_app; left; exact Hk).
    destruct (Hc "fullName") as [fullName ?]; [simpl; tauto|].
    destruct (Hc "email") as [email ?]; [simpl; tauto|].
    destruct (Hc "phone") as [phone ?]; [simpl; tauto|].
    destruct (Hc "bio") as [bio ?]; [simpl; tauto|].
    destruct (Hc "address") as [address ?]; [simpl; tauto|].
    destruct (Hc "profileImageUrl") as [profileImageUrl ?]; [simpl; tauto|].
    assert (Hvol : strictEqString (field form "role") "volunteer" = true ->
                   isString (field form "skills")).
    { intros E. apply Hstr. rewrite E.
      apply in_or_app; right; apply in_or_app; left; simpl; tauto. }
    assert (Hngo : strictEqString (field form "role") "ngo" = true ->
                   forall k, In k ngoTextNames -> isString (field form k)).
    { intros E k Hk. apply Hstr. rewrite E.
      apply in_or_app; right; apply in_or_app; right; exact Hk. }
    clear Hstr Hc.
    destruct (strictEqString (field form "role") "volunteer") eqn:Ev;
      destruct (strictEqString (field form "role") "ngo") eqn:En;
      try (destruct (Hvol eq_refl) as [skills ?]);
      try (pose proof (Hngo eq_refl) as Hn;
           destruct (Hn "organizationName") as [a ?]; [simpl; tauto|];
           destruct (Hn "registrationNumber") as [b ?]; [simpl; tauto|];
           destruct (Hn "organizationAddress") as [c ?]; [simpl; tauto|];
           destruct (Hn "organizationWebsite") as [d ?]; [simpl; tauto|];
           destruct (Hn "contactPerson") as [e ?]; [simpl; tauto|];
           destruct (Hn "organizationDescription") as [f ?]; [simpl; tauto|]);
      eexists; apply buildFormData_Ok; rewrite Ev, En;
      exists fullName, email, phone, bio, address, profileImageUrl;
      do 2 eexists; repeat (split; [eassumption|]);
      (split; [first [reflexivity | eexists; split; [eassumption | reflexivity]]|]);
      (split; [first [reflexivity
                     | do 6 eexists; repeat (split; [eassumption|]); reflexivity]|]);
      reflexivity.
  - intros [p (fullName & email & phone & bio & address & profileImageUrl & vpart & npart
               & ? & ? & ? & ? & ? & ? & Hv & Hn & _)%buildFormData_Ok].
    intros k Hk. apply in_app_or in Hk as [Hk|Hk]; [|apply in_app_or in Hk as [Hk|Hk]].
    + simpl in Hk. unfold isString.
      repeat (destruct Hk as [<-|Hk]; [eauto|]). destruct Hk.
    + destruct (strictEqString (field form "role") "volunteer"); [|destruct Hk].
      destruct Hv as (skills & ? & _). destruct Hk as [<-|[]]. by exists skills.
    + destruct (strictEqString (field form "role") "ngo"); [|destruct Hk].
      destruct Hn as (a & b & c & d & e & f & ? & ? & ? & ? & ? & ? & _).
      simpl in Hk. unfold isString.
      repeat (destruct Hk as [<-|Hk]; [eauto|]). destruct Hk.
Qed.


(** The payload of an NGO with a proof document selected: the common fields,
    the organization's, the proof; nothing of the volunteer's, although a
    volunteer file is present in the state. *)
Example ngo_payload :
  exists p, submittedPayload ngoWithProof = Ok p
            /\ entryNames p = (commonNames ++ ngoTextNames ++ ["ngoProofFile"])%list
            /\ getAll p "organizationName" = [Text "Green Hands Trust"]
            /\ getAll p "skills" = [] /\ getAll p "file" = []
            /\ getAll p "removeDocument" = [].
Proof. eexists. split; [vm_compute; reflexivity|]. repeat split. Qed.

(** *** The skills list *)

(** Every entry is a trimmed piece, is not empty and has no white space at
    either end; every piece that is not blank gives an entry. *)
Lemma skillEntries_spec (pieces : list string) :
  Forall (fun e => e <> EmptyString /\ tight e /\ exists piece, In piece pieces /\ e = trim piece)
         (skillEntries pieces)
  /\ (forall piece, In piece pieces -> trim piece <> EmptyString ->
        In (trim piece) (skillEntries pieces)).
Proof.
  unfold skillEntries. split.
  - apply List.Forall_forall. intros e He.
    apply List.filter_In in He as [He Hne]. apply List.in_map_iff in He as (piece & <- & Hp).
    split; [by apply nonEmpty_true|]. split; [|eauto].
    destruct (trim_spec piece) as (_ & _ & _ & _ & _ & Ht). exact Ht.
  - intros piece Hp Hne. apply List.filter_In. split.
    + apply List.in_map. exact Hp.
    + by apply nonEmpty_true.
Qed.

Lemma quoteChar_plain (c : ascii) : plainChar c -> quoteChar c = String c EmptyString.
Proof.
  unfold plainChar, quoteChar. intros (H32 & H34 & H92).
  repeat match goal with
         | |- context [(?a =? ?b)%N] => destruct (N.eqb_spec a b); [lia|]
         | |- context [(?a <? ?b)%N] => destruct (N.ltb_spec a b); [lia|]
         end.
  reflexivity.
Qed.

(** A string of plain characters is serialized between double quotes,
    unchanged. *)
Lemma quoteJSONString_plain (s : string) :
  Forall plainChar (chars s) -> quoteJSONString s = quoted s.
Proof.
  unfold quoteJSONString, quoted, dquote. intros H.
  change (String (ascii_of_N 34) EmptyString ++ quoteBody s ++ String (ascii_of_N 34) EmptyString)
    with (String (ascii_of_N 34) (quoteBody s ++ String (ascii_of_N 34) EmptyString)).
  change (String (ascii_of_N 34) s ++ String (ascii_of_N 34) EmptyString)
    with (String (ascii_of_N 34) (s ++ String (ascii_of_N 34) EmptyString)).
  do 2 f_equal.
  induction s as [|c r IH]; [reflexivity|].
  inversion H as [|? ? Hc Hr]; subst. cbn [quoteBody].
  rewrite (quoteChar_plain c Hc), (IH Hr). reflexivity.
Qed.

Lemma skills_example :
  stringifyStrings (skillEntries (split "," exampleSkillsText)) = exampleSkillsJSON.
Proof. vm_compute. reflexivity. Qed.



(** *** Attaching a document *)

(** A file is allowed exactly when its MIME type is on the allow-list or its
    lowercased name ends in one of the three extensions. *)
Lemma isAllowedDocument_spec (file : File) :
  isAllowedDocument file = true
  <-> In (type file) allowedMimeTypes
      \/ exists ext, In ext documentExtensions
                     /\ hasExtension (toLowerCase (name file)) ext.
Proof.
  unfold isAllowedDocument, hasExtension, documentExtensions.
  rewrite !orb_true_iff, !endsWith_spec, existsb_exists. split.
  - intros [[[(t & Ht & ->%String.eqb_eq) | H] | H] | H].
    + left. exact Ht.
    + right. exists ".pdf". simpl. tauto.
    + right. exists ".doc". simpl. tauto.
    + right. exists ".docx". simpl. tauto.
  - intros [Ht | (ext & Hext & H)].
    + left. left. left. exists (type file). split; [exact Ht | apply String.eqb_refl].
    + simpl in Hext. destruct Hext as [<-|[<-|[<-|[]]]]; tauto.
Qed.

Lemma isAllowedDocument_false (file : File) :
  isAllowedDocument file = false
  <-> ~ In (type file) allowedMimeTypes
      /\ forall ext, In ext documentExtensions ->
                     ~ hasExtension (toLowerCase (name file)) ext.
Proof.
  rewrite <- not_true_iff_false, isAllowedDocument_spec. split.
  - intros H. split; [tauto|]. intros ext Hext Hhas. apply H. right. eauto.
  - intros [Ht He] [H | (ext & Hext & Hhas)]; [tauto|]. exact (He ext Hext Hhas).
Qed.

(** C4: a selected file whose MIME type is not on the allow-list and whose
    lowercased name ends in none of .pdf, .doc, .docx is rejected by either
    attachment handler: the error becomes 'Please upload a PDF or DOC file
    only.', the value of the file input is cleared, and the slot's reference,
    staged file and removal flag are unchanged; a file that passes the MIME
    check or the extension check is accepted: it is staged, the slot's
    removal flag and the error are cleared. *)
Theorem C4_attachment_validation (st : State) (target : FileInput) (file : File) :
  head (files target) = Some file ->
  let volunteer := handleVolunteerFileChange target in
  let ngo := handleNgoProofChange target in
  (~ In (type file) allowedMimeTypes ->
   (forall ext, In ext documentExtensions ->
                ~ hasExtension (toLowerCase (name file)) ext) ->
     (error (exec volunteer st) = "Please upload a PDF or DOC file only."
      /\ result volunteer st = Ok {| files := []; value := "" |}
      /\ volunteerSlot (exec volunteer st) = volunteerSlot st
      /\ ngoSlot (exec volunteer st) = ngoSlot st
      /\ form (exec volunteer st) = form st)
     /\ (error (exec ngo st) = "Please upload a PDF or DOC file only."
         /\ result ngo st = Ok {| files := []; value := "" |}
         /\ ngoSlot (exec ngo st) = ngoSlot st
         /\ volunteerSlot (exec ngo st) = volunteerSlot st
         /\ form (exec ngo st) = form st))
  /\ (In (type file) allowedMimeTypes
      \/ (exists ext, In ext documentExtensions
                      /\ hasExtension (toLowerCase (name file)) ext) ->
        (error (exec volunteer st) = ""
         /\ result volunteer st = Ok target
         /\ volunteerSlot (exec volunteer st)
            = {| reference := reference (volunteerSlot st); staged := Some file;
                 removal := false |}
         /\ ngoSlot (exec volunteer st) = ngoSlot st)
        /\ (error (exec ngo st) = ""
            /\ result ngo st = Ok target
            /\ ngoSlot (exec ngo st)
               = {| reference := reference (ngoSlot st); staged := Some file;
                    removal := false |}
            /\ volunteerSlot (exec ngo st) = volunteerSlot st)).
Proof.
  intros Hfile volunteer ngo. subst volunteer ngo.
  unfold handleVolunteerFileChange, handleNgoProofChange, exec, result. rewrite Hfile.
  split.
  - intros Ht He.
    assert (Hno : isAllowedDocument file = false) by (apply isAllowedDocument_false; auto).
    rewrite Hno. simpl. repeat split; reflexivity.
  - intros Hyes. apply isAllowedDocument_spec in Hyes. rewrite Hyes. simpl.
    repeat split; reflexivity.
Qed.

Lemma C4_witness :
  error (exec (handleVolunteerFileChange resumeExe) initialState)
  = "Please upload a PDF or DOC file only."
  /\ result (handleVolunteerFileChange resumeExe) initialState
     = Ok {| files := []; value := "" |}
  /\ volunteerSlot (exec (handleVolunteerFileChange resumeExe) initialState)
     = volunteerSlot initialState.
Proof.
  assert (Hmime : ~ In "application/x-msdownload" allowedMimeTypes)
    by (simpl; intros [H|[H|[H|[]]]]; discriminate H).
  assert (Hext : forall ext, In ext documentExtensions ->
                             ~ hasExtension (toLowerCase "resume.exe") ext).
  { intros ext Hin Hhas. apply endsWith_spec in Hhas.
    simpl in Hin. destruct Hin as [<-|[<-|[<-|[]]]]; vm_compute in Hhas; discriminate Hhas. }
  destruct (proj1 (C4_attachment_validation initialState resumeExe
                     {| name := "resume.exe"; type := "application/x-msdownload";
                        size := 73802 |} eq_refl) Hmime Hext)
    as ((He & Hr & Hs & _) & _).
  exact (conj He (conj Hr Hs)).
Defined.

(** Choosing [Resume.PDF] after a rejection clears the error and stages the
    file. *)
Example resume_pdf_after_rejection :
  let rejected := exec (handleVolunteerFileChange resumeExe) initialState in
  let st := exec (handleVolunteerFileChange resumePdf) rejected in
  error rejected = "Please upload a PDF or DOC file only."
  /\ error st = ""
  /\ volunteerDocumentFile st = head (files resumePdf)
  /\ removeVolunteerDocument st = false.
Proof. vm_compute. repeat split; reflexivity. Qed.

(** *** Removing a document *)

Lemma field_insert_eq (form : Form) (k : string) (v : Value) :
  field (<[k := v]> form) k = v.
Proof. unfold field. by rewrite lookup_insert_eq. Qed.

Lemma field_insert_ne (form : Form) (k k' : string) (v : Value) :
  k <> k' -> field (<[k := v]> form) k' = field form k'.
Proof. intros Hne. unfold field. by rewrite lookup_insert_ne. Qed.

(** Writing a field that the payload builder does not read leaves the
    payload as it was. *)
Lemma buildFormData_insert_unread (form : Form) (k : string) (v : Value)
    (vf nf : option File) (rv rn : bool) :
  ~ In k ("skills" :: commonNames ++ ngoTextNames)%list ->
  buildFormData (<[k := v]> form) vf nf rv rn = buildFormData form vf nf rv rn.
Proof.
  intros Hk. unfold buildFormData.
  assert (Hf : forall k', In k' ("skills" :: commonNames ++ ngoTextNames)%list ->
                          field (<[k := v]> form) k' = field form k').
  { intros k' Hk'. apply field_insert_ne. intros ->. exact (Hk Hk'). }
  rewrite !Hf by (simpl; tauto). reflexivity.
Qed.


(** Removing the uploaded document of a volunteer, then submitting. *)
Example remove_then_submit :
  let st := exec handleRemoveVolunteerFile volunteerWithDocument in
  volunteerRemoveRendered volunteerWithDocument = true
  /\ field (form volunteerWithDocument) "volunteerDocumentUrl" = JStr "/uploads/asha-cv.pdf"
  /\ field (form st) "volunteerDocumentUrl" = JStr ""
  /\ exists p, submittedPayload st = Ok p
               /\ getAll p "removeDocument" = [Text "true"]
               /\ getAll p "file" = []
               /\ getAll p "skills" = [Text ("[" ++ quoted "Teaching" ++ ","
                                                 ++ quoted "First Aid" ++ "]")].
Proof.
  split; [vm_compute; reflexivity|]. split; [vm_compute; reflexivity|].
  split; [vm_compute; reflexivity|].
  eexists. split; [vm_compute; reflexivity|]. repeat split.
Qed.

(** *** Submitting *)

Ltac run_handler :=
  cbv beta iota zeta delta
      [exec result handleSubmit submitStart submitTry awaitSave awaitFetch
       tryFinally tryCatch liftResult throw when getState modify
       setForm updateForm setLoading setSaving setUploadProgress setError setSuccess
       setToast setVolunteerDocumentFile setNgoProofFile setRemoveVolunteerDocument
       setRemoveNgoProofDocument
       mbind M_bind mret M_ret fst snd failed saved messageOr parseOrNull JSON_parse
       save_ok save_status save_text save_contentType save_request
       form loading saving uploadProgress error success toast volunteerDocumentFile
       ngoProofFile removeVolunteerDocument removeNgoProofDocument].

(** The progress events change the progress value only. *)
Lemma forEach_onprogress (events : list ProgressEvent) (st : State) :
  exists n, forEach onprogress events st = (Ok tt, exec (setUploadProgress n) st).
Proof.
  revert st. induction events as [|event rest IH]; intros st.
  - exists (uploadProgress st). destruct st. reflexivity.
  - cbn [forEach]. unfold mbind, M_bind. unfold onprogress at 1.
    destruct (lengthComputable event); cbn [negb].
    + destruct (IH (exec (setUploadProgress (percent event)) st)) as [n Hn].
      exists n.
      change (setUploadProgress (percent event) st)
        with (Ok tt, exec (setUploadProgress (percent event)) st).
      cbv iota beta. rewrite Hn. reflexivity.
    + exact (IH st).
Qed.

Ltac run_progress :=
  match goal with
  | |- context [forEach onprogress ?events ?st] =>
      let n := fresh "n" in
      let Hn := fresh "Hn" in
      destruct (forEach_onprogress events st) as [n Hn]; rewrite Hn; clear Hn
  end.

(** A submission whose payload cannot be built fails with the message of
    the exception. *)
Lemma submit_throws (env : SubmitEnv) (st : State) (e : Exn) :
  submittedPayload st = Throw e ->
  exec (handleSubmit env) st = failed (messageOr e "Unable to update profile.") st.
Proof.
  intros Hp. destruct st. run_handler. rewrite Hp. reflexivity.
Qed.

(** A submission whose request ends with the [error] event fails with the
    network message. *)
Lemma submit_network_error (env : SubmitEnv) (st : State) (p : FormData) :
  submittedPayload st = Ok p ->
  putOutcome env = XhrError ->
  exec (handleSubmit env) st = failed "Network error while updating profile." st.
Proof.
  intros Hp Hput. destruct st. run_handler. rewrite Hp. run_handler.
  run_progress. run_handler. rewrite Hput. reflexivity.
Qed.

Lemma successStatus_dec (request : XhrLoad) :
  ((200 <=? status request)%Z && (status request <? 300)%Z = true <-> successStatus request)
  /\ ((200 <=? status request)%Z && (status request <? 300)%Z = false
      <-> ~ successStatus request).
Proof. unfold successStatus. split; [|rewrite <- not_true_iff_false]; rewrite andb_true_iff; lia. Qed.

(** A save answered with a status outside 200..299 fails, and its error is
    one of three messages. *)
Lemma submit_rejected (env : SubmitEnv) (st : State) (p : FormData) (request : XhrLoad) :
  submittedPayload st = Ok p ->
  putOutcome env = XhrLoaded request ->
  ~ successStatus request ->
  exists message,
    exec (handleSubmit env) st = failed message st
    /\ (htmlContentType request -> message = apiNotReachable)
    /\ (~ htmlContentType request ->
        forall m, bodyMessage request m -> m <> EmptyString -> message = m)
    /\ (~ htmlContentType request ->
        (forall m, bodyMessage request m -> m = EmptyString) -> message = updateFailed).
Proof.
  intros Hp Hput Hs.
  pose proof (proj2 (proj2 (successStatus_dec request)) Hs) as Hstatus. clear Hs.
  destruct st. run_handler. rewrite Hp. run_handler.
  run_progress. run_handler. rewrite Hput. run_handler. rewrite Hstatus. run_handler.
  unfold htmlContentType, bodyMessage.
  destruct (includes (toLowerCase (default "" (responseContentType request))) "text/html")
    eqn:Hhtml.
  - apply includes_spec in Hhtml.
    eexists. split; [reflexivity|]. split; [reflexivity|]. split; intros Hno; contradiction.
  - assert (Hno : ~ exists pre post,
               toLowerCase (default "" (responseContentType request))
               = pre ++ "text/html" ++ post)
      by (rewrite <- includes_spec, Hhtml; discriminate).
    assert (Hgeneric :
              (forall m, responseText request <> EmptyString ->
                 (exists props, parsedText request = Some (JObj props)
                                /\ lookupProp props "message" = JStr m) ->
                 m <> EmptyString -> False) ->
              exists message,
                failed updateFailed
                  {| form := form0; loading := loading0; saving := saving0;
                     uploadProgress := uploadProgress0; error := error0;
                     success := success0; toast := toast0;
                     volunteerDocumentFile := volunteerDocumentFile0;
                     ngoProofFile := ngoProofFile0;
                     removeVolunteerDocument := removeVolunteerDocument0;
                     removeNgoProofDocument := removeNgoProofDocument0 |}
                = failed message
                    {| form := form0; loading := loading0; saving := saving0;
                       uploadProgress := uploadProgress0; error := error0;
                       success := success0; toast := toast0;
                       volunteerDocumentFile := volunteerDocumentFile0;
                       ngoProofFile := ngoProofFile0;
                       removeVolunteerDocument := removeVolunteerDocument0;
                       removeNgoProofDocument := removeNgoProofDocument0 |}
                /\ ((exists pre post,
                       toLowerCase (default "" (responseContentType request))
                       = pre ++ "text/html" ++ post) -> message = apiNotReachable)
                /\ (~ (exists pre post,
                         toLowerCase (default "" (responseContentType request))
                         = pre ++ "text/html" ++ post) ->
                    forall m,
                      responseText request <> EmptyString
                      /\ (exists props, parsedText request = Some (JObj props)
                                        /\ lookupProp props "message" = JStr m) ->
                      m <> EmptyString -> message = m)
                /\ (~ (exists pre post,
                         toLowerCase (default "" (responseContentType request))
                         = pre ++ "text/html" ++ post) ->
                    (forall m,
                       responseText request <> EmptyString
                       /\ (exists props, parsedText request = Some (JObj props)
                                         /\ lookupProp props "message" = JStr m) ->
                       m = EmptyString) -> message = updateFailed)).
    { intros Hnone. exists updateFailed. split; [reflexivity|]. split; [tauto|].
      split; [|reflexivity].
      intros _ m [Hne Hbody] Hm. destruct (Hnone m Hne Hbody Hm). }
    destruct (nonEmpty (responseText request)) eqn:Htext.
    2: { apply Hgeneric. intros m Hne _ _. apply nonEmpty_true in Hne. congruence. }
    destruct (parsedText request) as [body|] eqn:Hparsed.
    2: { apply Hgeneric. intros m _ (props & Hprops & _) _. discriminate Hprops. }
    destruct body as [| |[|]|[[|] numText]|[|c' str]|items|props];
      cbn [truthy typeofObject typeofString getProp andb negb nonEmpty numIsFalsy toString];
      try (apply Hgeneric; intros m _ (props' & Hprops & _) _; discriminate Hprops).
    destruct (lookupProp props "message") as [| |b|num|[|c' m']|items|props'] eqn:Hmsg;
      cbn [truthy typeofObject typeofString andb nonEmpty toString];
      try (apply Hgeneric; intros m _ (props'' & Hprops & Hm) Hnonempty;
           injection Hprops as <-; rewrite Hmsg in Hm;
           first [discriminate Hm | injection Hm as <-; contradiction]).
    exists (String c' m'). split; [reflexivity|]. split; [tauto|]. split.
    + intros _ m (_ & props'' & Hprops & Hm) _.
      injection Hprops as <-. rewrite Hmsg in Hm. by injection Hm.
    + intros _ Hall. specialize (Hall (String c' m')).
      discriminate Hall. split; [apply nonEmpty_true; exact Htext|].
      exists props. split; [reflexivity | exact Hmsg].
Qed.

(** A save answered with a status in 200..299 succeeds. *)
Lemma submit_accepted (env : SubmitEnv) (st : State) (p : FormData) (request : XhrLoad) :
  submittedPayload st = Ok p ->
  putOutcome env = XhrLoaded request ->
  successStatus request ->
  exec (handleSubmit env) st = saved (finalBuffer request (reconcileOutcome env) st) st.
Proof.
  intros Hp Hput Hs.
  pose proof (proj2 (proj1 (successStatus_dec request)) Hs) as Hstatus. clear Hs.
  destruct st. run_handler. rewrite Hp. run_handler.
  run_progress. run_handler. rewrite Hput. run_handler. rewrite Hstatus. run_handler.
  unfold finalBuffer, bufferAfterSave, wellFormed. cbn [form].
  destruct (nonEmpty (responseText request)); cbn [andb];
    [destruct (parsedText request) as [body|];
       [destruct (truthy body && typeofObject body)|]|];
    destruct (reconcileOutcome env) as [reason|response]; run_handler;
    try reflexivity.
  all: try (destruct (parsedText request); reflexivity).
  all: destruct (ok response); cbn [andb]; run_handler;
    [destruct (truthy (readResponseJson response)
               && typeofObject (readResponseJson response))|];
    try reflexivity.
  all: destruct (parsedText request); reflexivity.
Qed.

Lemma finalBuffer_fails (request : XhrLoad) (outcome : FetchOutcome) (st : State) :
  reconcileFails outcome -> finalBuffer request outcome st = bufferAfterSave request st.
Proof.
  unfold finalBuffer, wellFormed, readResponseJson.
  destruct 1 as [reason|response Hok|response Hjson|response Hnone|response v Hsome Hv];
    [reflexivity|..].
  - by rewrite Hok.
  - rewrite Hjson. cbn. by rewrite andb_false_r.
  - rewrite Hnone. destruct (isJsonResponse response); cbn; by rewrite andb_false_r.
  - rewrite Hsome. unfold wellFormed in Hv.
    destruct (isJsonResponse response); cbn; [rewrite Hv|]; by rewrite andb_false_r.
Qed.

Lemma finalBuffer_reconciles (request : XhrLoad) (outcome : FetchOutcome) (st : State)
    (user : Value) :
  reconciles outcome user -> finalBuffer request outcome st = mapUserToForm user.
Proof.
  intros (response & -> & Hok & Hjson & Huser & Hwf).
  unfold finalBuffer, readResponseJson. rewrite Hok, Hjson, Huser. cbn. by rewrite Hwf.
Qed.

(** The follow-up read either fails or gives a user. *)
Lemma reconcile_cases (outcome : FetchOutcome) :
  reconcileFails outcome \/ exists user, reconciles outcome user.
Proof.
  destruct outcome as [reason|response]; [left; constructor|].
  destruct (ok response) eqn:Hok; [|left; by apply reconcile_not_ok].
  destruct (isJsonResponse response) eqn:Hjson; [|left; by apply reconcile_not_json].
  destruct (json response) as [v|] eqn:Hv; [|left; by apply reconcile_unparseable].
  destruct (wellFormed v) eqn:Hwf; [|left; by eapply reconcile_not_object].
  right. exists v, response. auto.
Qed.

(** A successful save whose follow-up read gives a user ends with the mapped
    user as the buffer. *)
Lemma submit_reconciled (env : SubmitEnv) (st : State) (p : FormData) (request : XhrLoad)
    (user : Value) :
  submittedPayload st = Ok p ->
  putOutcome env = XhrLoaded request ->
  successStatus request ->
  reconciles (reconcileOutcome env) user ->
  exec (handleSubmit env) st = saved (mapUserToForm user) st.
Proof.
  intros Hp Hput Hstatus Huser.
  rewrite (submit_accepted env st p request Hp Hput Hstatus).
  by rewrite (finalBuffer_reconciles request _ st user Huser).
Qed.

(** Every submission ends in a failed state or in a saved state. *)
Lemma submit_outcomes (env : SubmitEnv) (st : State) :
  (exists message, exec (handleSubmit env) st = failed message st)
  \/ (exists buffer, exec (handleSubmit env) st = saved buffer st).
Proof.
  destruct (submittedPayload st) as [p|e] eqn:Hp;
    [|left; eexists; by apply submit_throws].
  destruct (putOutcome env) as [|request] eqn:Hput;
    [left; eexists; by eapply submit_network_error|].
  destruct (successStatus_dec request) as [Hyes Hno].
  destruct ((200 <=? status request)%Z && (status request <? 300)%Z) eqn:Hs.
  - right. eexists. eapply submit_accepted; eauto. by apply Hyes.
  - left. destruct (submit_rejected env st p request Hp Hput) as (m & Hm & _);
      [by apply Hno | eauto].
Qed.

(** *** The error of a rejected save *)

Lemma emptyMessage_not_html :
  forall request, loadedRequest emptyMessage = Some request -> ~ htmlContentType request.
Proof.
  intros request H. injection H as <-. unfold htmlContentType.
  rewrite <- includes_spec. vm_compute. discriminate.
Qed.

(** C3, as stated: the message field of the body, whenever it is a string,
    is the error shown.  It fails on a save answered with status 400 and the
    body [{"message":""}]: the message field is the empty string and the
    error shown is the generic message. *)
Lemma C3_counterexample :
  (exists request,
     putOutcome emptyMessage = XhrLoaded request
     /\ status request = 400%Z
     /\ bodyMessage request EmptyString
     /\ error (exec (handleSubmit emptyMessage) exampleState) = updateFailed
     /\ updateFailed <> EmptyString)
  /\ ~ message_always_shown.
Proof.
  assert (Hbody : forall request, loadedRequest emptyMessage = Some request ->
                                  bodyMessage request EmptyString).
  { intros request H. injection H as <-. split; [discriminate|].
    eexists. split; reflexivity. }
  assert (Herr : error (exec (handleSubmit emptyMessage) exampleState) = updateFailed)
    by (vm_compute; reflexivity).
  split.
  - eexists. split; [reflexivity|]. split; [reflexivity|].
    split; [by apply Hbody|]. split; [exact Herr | discriminate].
  - intros H.
    destruct (buildFormData_total (form exampleState) None None false false) as [_ Hp].
    destruct (submittedPayload exampleState) as [p|e] eqn:E;
      [|vm_compute in E; discriminate E].
    destruct (H emptyMessage exampleState p _ E eq_refl) as (_ & Hm & _).
    { unfold successStatus. simpl. lia. }
    specialize (Hm (emptyMessage_not_html _ eq_refl) EmptyString (Hbody _ eq_refl)).
    rewrite Herr in Hm. discriminate Hm.
Qed.

(** C3, amended: a save that completes with a status outside 200..299 shows
    'API not reachable. Set VITE_API_BASE_URL to your backend URL.' when the
    lowercased content type includes text/html, whatever the body; otherwise
    the message field of the body when the body parses as a JSON object whose
    message field is a non-empty string; otherwise 'Profile update failed.
    Please try again.'.  Nothing else changes but the success message, which
    is cleared. *)
Theorem C3_save_error_messages (env : SubmitEnv) (st : State) (p : FormData)
    (request : XhrLoad) :
  submittedPayload st = Ok p ->
  putOutcome env = XhrLoaded request ->
  ~ successStatus request ->
  let st' := exec (handleSubmit env) st in
  st' = failed (error st') st
  /\ (htmlContentType request -> error st' = apiNotReachable)
  /\ (~ htmlContentType request ->
      forall m, bodyMessage request m -> m <> EmptyString -> error st' = m)
  /\ (~ htmlContentType request ->
      (forall m, bodyMessage request m -> m = EmptyString) -> error st' = updateFailed).
Proof.
  intros Hp Hput Hstatus.
  destruct (submit_rejected env st p request Hp Hput Hstatus) as (message & Hexec & H).
  cbv zeta. rewrite Hexec. exact (conj eq_refl H).
Qed.

Lemma C3_witness :
  error (exec (handleSubmit emailInUse) exampleState) = "Email already in use".
Proof.
  destruct (submittedPayload exampleState) as [p|e] eqn:E.
  - refine (proj1 (proj2 (proj2 (C3_save_error_messages emailInUse exampleState p _ E
                                   eq_refl _))) _ "Email already in use" _ _).
    + unfold successStatus. simpl. lia.
    + unfold htmlContentType. rewrite <- includes_spec. vm_compute. discriminate.
    + split; [discriminate|]. eexists. split; reflexivity.
    + discriminate.
  - vm_compute in E. discriminate E.
Defined.

(** A save answered with status 502 and an HTML page shows the configuration
    message, whatever the body. *)
Example bad_gateway_html (body : string) (parsed : option Value) :
  error (exec (handleSubmit
                 {| progressEvents := [];
                    putOutcome :=
                      XhrLoaded {| status := 502; responseText := body;
                                   responseContentType := Some "text/html; charset=UTF-8";
                                   parsedText := parsed |};
                    reconcileOutcome := FetchRejects (ErrorObj "Failed to fetch") |})
          exampleState)
  = "API not reachable. Set VITE_API_BASE_URL to your backend URL.".
Proof.
  destruct (submittedPayload exampleState) as [p|e] eqn:E;
    [|vm_compute in E; discriminate E].
  match goal with
  | |- error (exec (handleSubmit ?env) _) = _ =>
      destruct (submit_rejected env exampleState p _ E eq_refl) as (m & -> & Hhtml & _)
  end.
  - unfold successStatus. simpl. lia.
  - apply Hhtml. unfold htmlContentType. rewrite <- includes_spec. vm_compute. reflexivity.
Qed.

(** *** A successful save whose follow-up read fails *)



(** *** Messages and progress of a submission *)


(** The two messages exclude each other when an attempt completes, not in
    every state: a file rejected after a successful save leaves both on the
    page until the next attempt. *)
Example messages_after_later_rejection :
  let st := exec (handleVolunteerFileChange resumeExe)
              (exec (handleSubmit savedThenOffline) exampleState) in
  success st = "Your profile has been updated successfully."
  /\ error st = "Please upload a PDF or DOC file only.".
Proof. vm_compute. split; reflexivity. Qed.

(** *** Document slots *)

Ltac run_page :=
  cbv beta iota zeta delta
      [exec result loadCurrentProfile handleChange handleVolunteerFileChange
       handleNgoProofChange handleRemoveVolunteerFile handleRemoveNgoProofFile awaitFetch
       tryFinally tryCatch liftResult throw when getState modify
       setForm updateForm setLoading setSaving setUploadProgress setError setSuccess
       setToast setVolunteerDocumentFile setNgoProofFile setRemoveVolunteerDocument
       setRemoveNgoProofDocument
       mbind M_bind mret M_ret fst snd messageOr volunteerSlot ngoSlot
       form loading saving uploadProgress error success toast volunteerDocumentFile
       ngoProofFile removeVolunteerDocument removeNgoProofDocument
       reference staged removal].

(** What an operation does to the two slots: it leaves both as they were,
    or it lowers both removal flags, or it is a file choice that stages a file
    and lowers the flag of its slot, or it is a removal that empties its slot
    and raises its flag. *)
Lemma run_slots (op : Op) (st : State) :
  possible op ->
  let st' := run op st in
  (volunteerSlot st' = volunteerSlot st
   \/ removal (volunteerSlot st') = false
   \/ volunteerSlot st' = {| reference := JStr ""; staged := None; removal := true |})
  /\ (ngoSlot st' = ngoSlot st
      \/ removal (ngoSlot st') = false
      \/ ngoSlot st' = {| reference := JStr ""; staged := None; removal := true |}).
Proof.
  intros Hop. cbv zeta.
  destruct op as [mounted outcome|name value|target|target| | |env]; cbn [run].
  - (* load *)
    destruct st, mounted, outcome as [reason|response]; run_page;
      try (split; left; reflexivity);
      (destruct (ok response); cbn [negb]; run_page;
       [destruct (negb (truthy (readResponseJson response))
                  || negb (typeofObject (readResponseJson response))); run_page
       |destruct (isHtmlResponse response); run_page]);
      (split; first [left; reflexivity | right; left; reflexivity]).
  - (* edit of a named input *)
    cbn [possible] in Hop. destruct st. run_page.
    unfold inputNames in Hop. simpl in Hop.
    split; left; f_equal; apply field_insert_ne; intros ->;
      repeat (destruct Hop as [Hop|Hop]; [discriminate Hop|]); destruct Hop.
  - (* choice of a volunteer file *)
    destruct st. run_page. destruct (head (files target)) as [file|]; run_page;
      [|split; left; reflexivity].
    destruct (isAllowedDocument file); cbn [negb]; run_page.
    + split; [right; left; reflexivity | left; reflexivity].
    + split; left; reflexivity.
  - (* choice of an NGO proof *)
    destruct st. run_page. destruct (head (files target)) as [file|]; run_page;
      [|split; left; reflexivity].
    destruct (isAllowedDocument file); cbn [negb]; run_page.
    + split; [left; reflexivity | right; left; reflexivity].
    + split; left; reflexivity.
  - (* removal of the volunteer document *)
    destruct st. run_page. split.
    + right. right. by rewrite field_insert_eq.
    + left. f_equal. by apply field_insert_ne.
  - (* removal of the NGO proof *)
    destruct st. run_page. split.
    + left. f_equal. by apply field_insert_ne.
    + right. right. by rewrite field_insert_eq.
  - (* submission *)
    destruct (submit_outcomes env st) as [[message ->] | [buffer ->]].
    + split; left; reflexivity.
    + split; right; left; reflexivity.
Qed.

Lemma removalExclusive_step (before now : Slot) :
  removalExclusive before ->
  now = before \/ removal now = false
  \/ now = {| reference := JStr ""; staged := None; removal := true |} ->
  removalExclusive now.
Proof.
  unfold removalExclusive. intros Hbefore [-> | [Hfalse | ->]].
  - exact Hbefore.
  - rewrite Hfalse. discriminate.
  - intros _. split; reflexivity.
Qed.

Lemma after_reachable (session : list Op) :
  Forall possible session -> reachable (after session).
Proof.
  unfold after. generalize initialState, reachable_initial.
  induction session as [|op rest IH]; intros st Hst Hall; [exact Hst|].
  inversion Hall as [|? ? Hop Hrest]; subst. cbn [fold_left].
  apply IH; [by apply reachable_run | exact Hrest].
Qed.

(** C6, as stated: at most one of remote reference, selected file and
    removal flag is active per slot in every reachable state.  It fails after
    a load that finds an uploaded volunteer document followed by the choice
    of a replacement file: the reference and the selected file are both
    active. *)
Lemma C6_counterexample :
  reachable (after replacementSession)
  /\ reference (volunteerSlot (after replacementSession)) = JStr "/uploads/asha-cv.pdf"
  /\ staged (volunteerSlot (after replacementSession)) = head (files resumePdf)
  /\ activeCount (volunteerSlot (after replacementSession)) = 2
  /\ ~ at_most_one_active.
Proof.
  assert (Hreach : reachable (after replacementSession)).
  { apply after_reachable. repeat constructor. }
  assert (Hcount : activeCount (volunteerSlot (after replacementSession)) = 2)
    by (vm_compute; reflexivity).
  split; [exact Hreach|]. split; [vm_compute; reflexivity|].
  split; [vm_compute; reflexivity|]. split; [exact Hcount|].
  intros H. destruct (H _ Hreach) as [Hv _]. rewrite Hcount in Hv. lia.
Qed.

(** C6, amended: in every state reachable by loads, edits of the named
    inputs, file choices, removals and submissions, each run to completion,
    a slot's removal flag is never raised together with a remote reference
    or a selected file (a selected file may stand beside the remote reference
    it is to replace); a file choice that is accepted lowers the removal flag
    of its slot, and a removal clears the remote reference and the selected
    file of its slot. *)
Theorem C6_slot_exclusion (st : State) :
  reachable st ->
  (removalExclusive (volunteerSlot st) /\ removalExclusive (ngoSlot st))
  /\ (forall target file,
        head (files target) = Some file -> isAllowedDocument file = true ->
        volunteerSlot (run (SelectVolunteerFile target) st)
        = {| reference := reference (volunteerSlot st); staged := Some file;
             removal := false |}
        /\ ngoSlot (run (SelectNgoProof target) st)
           = {| reference := reference (ngoSlot st); staged := Some file;
                removal := false |})
  /\ volunteerSlot (run RemoveVolunteerFile st)
     = {| reference := JStr ""; staged := None; removal := true |}
  /\ ngoSlot (run RemoveNgoProofFile st)
     = {| reference := JStr ""; staged := None; removal := true |}.
Proof.
  intros Hreach. split; [|split; [|split]].
  - induction Hreach as [|op st Hst [IHv IHn] Hop].
    + split; intros H; discriminate H.
    + pose proof (run_slots op st Hop) as H. cbv zeta in H. destruct H as [Hv Hn].
      split; [exact (removalExclusive_step _ _ IHv Hv)
             | exact (removalExclusive_step _ _ IHn Hn)].
  - intros target file Hfile Hallowed. cbn [run]. destruct st. run_page.
    rewrite Hfile, Hallowed. split; reflexivity.
  - cbn [run]. destruct st. run_page. by rewrite field_insert_eq.
  - cbn [run]. destruct st. run_page. by rewrite field_insert_eq.
Qed.

Lemma C6_witness :
  removalExclusive (volunteerSlot (after replacementSession))
  /\ removal (volunteerSlot (run RemoveVolunteerFile (after replacementSession))) = true
  /\ staged (volunteerSlot (run RemoveVolunteerFile (after replacementSession))) = None.
Proof.
  assert (Hreach : reachable (after replacementSession)).
  { apply after_reachable. repeat constructor. }
  destruct (C6_slot_exclusion (after replacementSession) Hreach)
    as ((Hv & _) & _ & Hremove & _).
  split; [exact Hv|]. rewrite Hremove. split; reflexivity.
Defined.

(* ===================================================================== *)
(** ** Further properties of the page *)
(* ===================================================================== *)

(** *** Loading *)

(** X1: a load on a mounted page that does not get a user fails with a message
    that tells why, and changes nothing but [error] and [loading]: the
    message of the rejection when [fetch] rejects; for a status that is not
    OK, the configuration message when the response is HTML and 'Unable to
    fetch profile details.' otherwise; for an OK response whose body is not
    announced as JSON, cannot be parsed or is not an object (an HTML page
    served with status 200 included), 'Invalid profile data from server.'. *)
Theorem load_failure_messages (st : State) (response : Response) (message : string) :
  exec (loadCurrentProfile true (FetchRejects (ErrorObj message))) st
  = loadFailed message st
  /\ (ok response = false -> isHtmlResponse response = true ->
      exec (loadCurrentProfile true (FetchResolves response)) st
      = loadFailed apiNotReachable st)
  /\ (ok response = false -> isHtmlResponse response = false ->
      exec (loadCurrentProfile true (FetchResolves response)) st
      = loadFailed "Unable to fetch profile details." st)
  /\ (ok response = true ->
      isJsonResponse response = false \/ json response = None
      \/ (exists v, json response = Some v /\ wellFormed v = false) ->
      exec (loadCurrentProfile true (FetchResolves response)) st
      = loadFailed "Invalid profile data from server." st).
Proof.
  destruct st. split; [reflexivity|]. split; [|split].
  - intros Hok Hhtml. run_page. rewrite Hok. cbn [negb]. run_page. rewrite Hhtml. reflexivity.
  - intros Hok Hhtml. run_page. rewrite Hok. cbn [negb]. run_page. rewrite Hhtml. reflexivity.
  - intros Hok Hbad. run_page. rewrite Hok. cbn [negb]. run_page.
    assert (Hwf : negb (truthy (readResponseJson response))
                  || negb (typeofObject (readResponseJson response)) = true).
    { unfold readResponseJson.
      destruct Hbad as [Hjson | [Hnone | (v & Hv & Hwf)]].
      - rewrite Hjson. reflexivity.
      - rewrite Hnone. destruct (isJsonResponse response); reflexivity.
      - rewrite Hv. destruct (isJsonResponse response); [|reflexivity].
        unfold wellFormed in Hwf. cbn [negb].
        destruct (truthy v), (typeofObject v); try reflexivity; discriminate Hwf. }
    rewrite Hwf. reflexivity.
Qed.

(** X2: a load whose page was unmounted before the request settled updates
    nothing afterwards, whatever the request gave: the state is the one the
    two writes before the request left. *)
Theorem load_after_unmount (st : State) (outcome : FetchOutcome) :
  exec (loadCurrentProfile false outcome) st = loadAbandoned st.
Proof.
  destruct st, outcome as [reason|response]; run_page; [reflexivity|].
  destruct (ok response); cbn [negb]; run_page.
  - destruct (negb (truthy (readResponseJson response))
              || negb (typeofObject (readResponseJson response))); reflexivity.
  - destruct (isHtmlResponse response); reflexivity.
Qed.



(** *** Editing *)

(** X4: an edit writes the value into the named field of the buffer and changes
    nothing else: no other field, no other cell of the state.  A second edit
    of the same input overwrites the first, and edits of different inputs
    commute. *)
Theorem edit_one_field (st : State) (name value : string) :
  let st' := exec (handleChange name value) st in
  field (form st') name = JStr value
  /\ (forall k, k <> name -> field (form st') k = field (form st) k)
  /\ cells st' = cells st
  /\ (forall value', exec (handleChange name value') st' = exec (handleChange name value') st)
  /\ (forall name' value', name' <> name ->
        exec (handleChange name' value') st'
        = exec (handleChange name value) (exec (handleChange name' value') st)).
Proof.
  destruct st. cbv zeta. run_page.
  split; [apply field_insert_eq|]. split; [|split; [reflexivity|split]].
  - intros k Hk. apply field_insert_ne. congruence.
  - intros value'. f_equal. apply insert_insert_eq.
  - intros name' value' Hne. f_equal. by apply insert_insert_ne.
Qed.

(** *** What the payload does not depend on *)

Lemma strictEqString_volunteer_ngo (v : Value) :
  strictEqString v "volunteer" = true -> strictEqString v "ngo" = false.
Proof. intros ->%strictEqString_true. reflexivity. Qed.

Lemma strictEqString_ngo_volunteer (v : Value) :
  strictEqString v "ngo" = true -> strictEqString v "volunteer" = false.
Proof. intros ->%strictEqString_true. reflexivity. Qed.

(** X5: the payload of a volunteer does not depend on the NGO side of the
    state, and the payload of an NGO does not depend on the volunteer side:
    neither on the other role's fields of the buffer (which stay in the
    buffer), nor on the other slot's URL, selected file or removal flag. *)
Theorem payload_ignores_other_role (form : Form) (k : string) (v : Value)
    (vf vf' nf nf' : option File) (rv rv' rn rn' : bool) :
  (strictEqString (field form "role") "volunteer" = true ->
   In k ("volunteerDocumentUrl" :: ngoOnlyFields) ->
   buildFormData (<[k := v]> form) vf nf rv rn = buildFormData form vf nf' rv rn')
  /\ (strictEqString (field form "role") "ngo" = true ->
      In k ("ngoProofDocumentUrl" :: volunteerOnlyFields) ->
      buildFormData (<[k := v]> form) vf nf rv rn = buildFormData form vf' nf rv' rn).
Proof.
  split; intros Hrole Hk.
  - pose proof (strictEqString_volunteer_ngo _ Hrole) as Hngo.
    assert (Hf : forall k', In k' ("skills" :: commonNames)%list ->
                            field (<[k := v]> form) k' = field form k').
    { intros k' Hk'. apply field_insert_ne. intros ->.
      simpl in Hk, Hk'.
      repeat (destruct Hk as [Hk|Hk];
              [subst k'; repeat (destruct Hk' as [Hk'|Hk']; [discriminate Hk'|]);
               destruct Hk'|]).
      destruct Hk. }
    unfold buildFormData.
    rewrite (Hf "role"), (Hf "fullName"), (Hf "email"), (Hf "phone"), (Hf "bio"),
      (Hf "address"), (Hf "dateOfBirth"), (Hf "profileImageUrl"), (Hf "skills")
      by (unfold commonNames; simpl; tauto).
    rewrite Hrole, Hngo. reflexivity.
  - pose proof (strictEqString_ngo_volunteer _ Hrole) as Hvol.
    assert (Hf : forall k', In k' (commonNames ++ ngoTextNames)%list ->
                            field (<[k := v]> form) k' = field form k').
    { intros k' Hk'. apply field_insert_ne. intros ->.
      simpl in Hk, Hk'.
      repeat (destruct Hk as [Hk|Hk];
              [subst k'; repeat (destruct Hk' as [Hk'|Hk']; [discriminate Hk'|]);
               destruct Hk'|]).
      destruct Hk. }
    unfold buildFormData.
    rewrite (Hf "role"), (Hf "fullName"), (Hf "email"), (Hf "phone"), (Hf "bio"),
      (Hf "address"), (Hf "dateOfBirth"), (Hf "profileImageUrl"),
      (Hf "organizationName"), (Hf "registrationNumber"), (Hf "organizationAddress"),
      (Hf "organizationWebsite"), (Hf "contactPerson"), (Hf "organizationDescription")
      by (unfold commonNames, ngoTextNames; simpl; tauto).
    rewrite Hrole, Hvol. reflexivity.
Qed.

(** *** Outcomes of a submission *)

Lemma callTrim_Throw (expr : string) (v : Value) (e : Exn) :
  callTrim expr v = Throw e -> exists m, e = ErrorObj m /\ m <> EmptyString.
Proof.
  destruct v; simpl; intros H; try discriminate H; injection H as <-;
    eexists; (split; [reflexivity|]); try discriminate.
  all: destruct expr; discriminate.
Qed.

Lemma callSplit_Throw (expr : string) (v : Value) (e : Exn) :
  callSplit expr v = Throw e -> exists m, e = ErrorObj m /\ m <> EmptyString.
Proof.
  destruct v; simpl; intros H; try discriminate H; injection H as <-;
    eexists; (split; [reflexivity|]); try discriminate.
  all: destruct expr; discriminate.
Qed.

Lemma bind_Throw {A B} (m : Result A) (k : A -> Result B) (e : Exn) :
  (m ≫= k) = Throw e <-> m = Throw e \/ exists a, m = Ok a /\ k a = Throw e.
Proof.
  destruct m as [a|e']; simpl; split.
  - eauto.
  - intros [H | (a' & H & Hk)]; [discriminate H | by injection H as <-].
  - intros H. left. by injection H as ->.
  - intros [H | (a' & H & _)]; [by injection H as -> | discriminate H].
Qed.

(** What the payload builder throws is an [Error] with a message. *)
Lemma buildFormData_Throw (form : Form) (vf nf : option File) (rv rn : bool) (e : Exn) :
  buildFormData form vf nf rv rn = Throw e -> exists m, e = ErrorObj m /\ m <> EmptyString.
Proof.
  unfold buildFormData. intros H. cbv beta zeta in H.
  repeat match type of H with
         | (callTrim _ _ ≫= _) = Throw _ =>
             apply bind_Throw in H as [H | (? & _ & H)];
             [exact (callTrim_Throw _ _ _ H) | cbv beta zeta in H]
         end.
  apply bind_Throw in H as [H | (? & _ & H)].
  - destruct (strictEqString (field form "role") "volunteer"); [|discriminate H].
    apply bind_Throw in H as [H | (? & _ & H)];
      [exact (callSplit_Throw _ _ _ H) | discriminate H].
  - apply bind_Throw in H as [H | (? & _ & H)]; [|discriminate H].
    destruct (strictEqString (field form "role") "ngo"); [|discriminate H].
    cbv beta zeta in H.
    repeat match type of H with
           | (callTrim _ _ ≫= _) = Throw _ =>
               apply bind_Throw in H as [H | (? & _ & H)];
               [exact (callTrim_Throw _ _ _ H) | cbv beta zeta in H]
           end.
    discriminate H.
Qed.

(** Whether the body of a rejected save carries a non-empty message can be
    told. *)
Lemma bodyMessage_cases (request : XhrLoad) :
  (exists m, bodyMessage request m /\ m <> EmptyString)
  \/ (forall m, bodyMessage request m -> m = EmptyString).
Proof.
  unfold bodyMessage.
  destruct (responseText request) as [|c text];
    [right; intros m [Hne _]; contradiction|].
  destruct (parsedText request) as [[| | | | | |props]|];
    try (right; intros m (_ & props' & Hprops & _); discriminate Hprops).
  destruct (lookupProp props "message") as [| | | |[|c' m']| |] eqn:Hmsg;
    try (right; intros m (_ & props' & Hprops & Hm); injection Hprops as <-;
         rewrite Hmsg in Hm; first [discriminate Hm | by injection Hm]).
  left. exists (String c' m'). split; [|discriminate].
  split; [discriminate|]. exists props. split; [reflexivity | exact Hmsg].
Qed.


(** X7: a submission that gets no response.  When the payload cannot be built
    (a field whose [trim] or [split] is called is not a string) no request
    matters: whatever the network would do, the submission fails with the
    message of the [TypeError].  When the request ends with the [error]
    event, the submission fails with 'Network error while updating
    profile.', whatever progress was reported. *)
Theorem submit_without_response (st : State) :
  (forall e, submittedPayload st = Throw e ->
     exists m, e = ErrorObj m /\ m <> EmptyString
               /\ forall env, exec (handleSubmit env) st = failed m st)
  /\ (forall p env, submittedPayload st = Ok p -> putOutcome env = XhrError ->
        exec (handleSubmit env) st = failed "Network error while updating profile." st).
Proof.
  split.
  - intros e Hp. destruct (buildFormData_Throw _ _ _ _ _ e Hp) as (m & -> & Hm).
    exists m. split; [reflexivity|]. split; [exact Hm|].
    intros env. exact (submit_throws env st _ Hp).
  - intros p env Hp Hput. exact (submit_network_error env st p Hp Hput).
Qed.

(** The buffer of a user with a numeric phone cannot be submitted. *)
Example numeric_phone_submission (env : SubmitEnv) :
  exec (handleSubmit env) numericPhoneState
  = failed "form.phone.trim is not a function" numericPhoneState.
Proof.
  apply submit_throws with (e := ErrorObj "form.phone.trim is not a function").
  vm_compute. reflexivity.
Qed.

(** X8: after a successful save the selected files and the removal flags are
    spent: the payload of the next submission has no file and no removal
    field. *)
Theorem save_spends_files_and_flags (env : SubmitEnv) (st : State) (p : FormData) :
  success (exec (handleSubmit env) st) <> EmptyString ->
  submittedPayload (exec (handleSubmit env) st) = Ok p ->
  getAll p "file" = [] /\ getAll p "removeDocument" = []
  /\ getAll p "ngoProofFile" = [] /\ getAll p "removeNgoProofDocument" = [].
Proof.
  intros Hsuccess Hp.
  destruct (submit_outcomes env st) as [[message Hst] | [buffer Hst]]; rewrite Hst in *.
  - contradiction Hsuccess. reflexivity.
  - unfold submittedPayload in Hp. cbn [saved form volunteerDocumentFile ngoProofFile
      removeVolunteerDocument removeNgoProofDocument] in Hp.
    apply buildFormData_Ok in Hp
      as (fullName & email & phone & bio & address & profileImageUrl & vpart & npart
          & _ & _ & _ & _ & _ & _ & Hv & Hn & ->).
    destruct (strictEqString (field buffer "role") "volunteer");
      destruct (strictEqString (field buffer "role") "ngo");
      try destruct Hv as (skills & _ & ->);
      try destruct Hn as (a & b & c & d & e & f & _ & _ & _ & _ & _ & _ & ->);
      subst; repeat split.
Qed.

Lemma save_spends_files_and_flags_witness :
  match submittedPayload (exec (handleSubmit savedThenOffline)
                            (exec (handleVolunteerFileChange resumePdf) exampleState)) with
  | Ok p => getAll p "file" = [] /\ getAll p "removeDocument" = []
  | Throw _ => False
  end.
Proof.
  destruct (submittedPayload (exec (handleSubmit savedThenOffline)
                                (exec (handleVolunteerFileChange resumePdf) exampleState)))
    as [p|e] eqn:E.
  - destruct (save_spends_files_and_flags savedThenOffline
                (exec (handleVolunteerFileChange resumePdf) exampleState) p)
      as (Hfile & Hremove & _).
    + vm_compute. discriminate.
    + exact E.
    + exact (conj Hfile Hremove).
  - vm_compute in E. discriminate E.
Defined.

(** *** Upload progress *)

(** X9: the progress shown after a run of upload events is the percentage of the
    last event whose total is known; an event without a known total changes
    nothing, and no event changes another cell of the state. *)
Theorem progress_shows_last_known (events : list ProgressEvent) (st : State) :
  forEach onprogress events st
  = (Ok tt, withProgress (lastKnownPercent (uploadProgress st) events) st).
Proof.
  revert st. induction events as [|event rest IH]; intros st.
  - destruct st. reflexivity.
  - cbn [forEach lastKnownPercent fold_left]. unfold mbind, M_bind. unfold onprogress at 1.
    fold (lastKnownPercent (if lengthComputable event then percent event else uploadProgress st)
                           rest).
    destruct (lengthComputable event); cbn [negb].
    + change (setUploadProgress (percent event) st)
        with (Ok tt, withProgress (percent event) st).
      cbv iota beta. rewrite IH. reflexivity.
    + cbv beta iota delta [mret M_ret]. apply IH.
Qed.

(** *** The skills, from the server and back *)

Lemma split_free_one (sep : ascii) (a : string) :
  freeOf sep a -> split sep a = [a].
Proof.
  induction a as [|c r IH]; [reflexivity|]. intros Hfree. cbn [split].
  destruct (Ascii.eqb_spec c sep) as [->|Hne].
  - exfalso. apply Hfree. left. reflexivity.
  - rewrite IH; [reflexivity|]. intros H. apply Hfree. right. exact H.
Qed.

Lemma split_app_sep (sep : ascii) (a rest : string) :
  freeOf sep a -> split sep (a ++ String sep rest) = a :: split sep rest.
Proof.
  induction a as [|c r IH]; intros Hfree.
  - change (EmptyString ++ String sep rest) with (String sep rest).
    cbn [split]. by rewrite Ascii.eqb_refl.
  - change (String c r ++ String sep rest) with (String c (r ++ String sep rest)).
    cbn [split]. destruct (Ascii.eqb_spec c sep) as [->|Hne].
    + exfalso. apply Hfree. left. reflexivity.
    + rewrite IH; [reflexivity|]. intros H. apply Hfree. right. exact H.
Qed.

Lemma trimEnd_tight (s : string) :
  (forall r c, s = r ++ String c EmptyString -> isWhiteSpace c = false) -> trimEnd s = s.
Proof.
  induction s as [|c s IH]; [reflexivity|]. intros Hlast. cbn [trimEnd].
  rewrite IH.
  - destruct s as [|d t]; [|reflexivity].
    by rewrite (Hlast EmptyString c eq_refl).
  - intros r x ->. exact (Hlast (String c r) x eq_refl).
Qed.

Lemma trim_tight (s : string) : tight s -> trim s = s.
Proof.
  intros [Hfirst Hlast]. unfold trim.
  assert (Hstart : trimStart s = s).
  { destruct s as [|c r]; [reflexivity|]. cbn [trimStart].
    by rewrite (Hfirst c r eq_refl). }
  rewrite Hstart. by apply trimEnd_tight.
Qed.

Lemma trim_space_tight (s : string) : tight s -> trim (String " " s) = s.
Proof. intros Ht. unfold trim. cbn [trimStart]. exact (trim_tight s Ht). Qed.

Lemma app_last_inj (a b : string) (c d : ascii) :
  a ++ String c EmptyString = b ++ String d EmptyString -> c = d.
Proof.
  revert b. induction a as [|x a IH]; intros [|y b] H.
  - by injection H.
  - injection H as _ H. destruct b; discriminate H.
  - injection H as _ H. destruct a; discriminate H.
  - injection H as _ H. exact (IH b H).
Qed.

(** A string that begins and ends with a character that is no white space. *)
Lemma tight_ends (c : ascii) (middle : string) (d : ascii) :
  isWhiteSpace c = false -> isWhiteSpace d = false ->
  tight (String c (middle ++ String d EmptyString)).
Proof.
  intros Hc Hd. split.
  - intros x r H. injection H as <- _. exact Hc.
  - intros r x H.
    change (String c (middle ++ String d EmptyString))
      with (String c middle ++ String d EmptyString) in H.
    by rewrite <- (app_last_inj _ _ _ _ H).
Qed.

Lemma arrayJoin_strings (sep : string) (l : list string) :
  arrayJoin sep (map JStr l) = join sep l.
Proof. unfold arrayJoin. rewrite map_map. by rewrite map_id. Qed.

(** The pieces of a list of comma-free strings joined with a comma and a
    space: the first string, and each other string after a space. *)
Lemma split_join_comma_space (l : list string) :
  l <> [] -> Forall (freeOf ",") l ->
  split "," (join ", " l) = hd EmptyString l :: map (String " ") (tl l).
Proof.
  induction l as [|a rest IH]; [contradiction|]. intros _ Hfree.
  inversion Hfree as [|? ? Ha Hrest]; subst.
  destruct rest as [|b rest'].
  - cbn [join hd tl map]. by apply split_free_one.
  - rewrite join_cons by discriminate.
    change (a ++ ", " ++ join ", " (b :: rest'))
      with (a ++ String "," (String " " (join ", " (b :: rest')))).
    rewrite split_app_sep by exact Ha.
    cbn [split hd tl map]. change (Ascii.eqb " " ",") with false. cbv iota.
    rewrite (IH ltac:(discriminate) Hrest). reflexivity.
Qed.

(** Joining clean skills with a comma and a space and reading the entries
    back gives the skills. *)
Lemma skillEntries_join (l : list string) :
  Forall cleanSkill l -> skillEntries (split "," (join ", " l)) = l.
Proof.
  intros Hclean. destruct l as [|a rest]; [reflexivity|].
  rewrite split_join_comma_space;
    [|discriminate
     |eapply Forall_impl; [exact Hclean|]; by intros e (_ & _ & He)].
  unfold skillEntries. cbn [hd tl map].
  inversion Hclean as [|? ? (Ha & Hta & _) Hrest]; subst.
  rewrite (trim_tight a Hta). cbn [List.filter].
  rewrite (proj2 (nonEmpty_true a) Ha). f_equal.
  clear Hclean Ha Hta. induction Hrest as [|b rest' (Hb & Htb & _) _ IH]; [reflexivity|].
  cbn [map List.filter]. rewrite (trim_space_tight b Htb).
  rewrite (proj2 (nonEmpty_true b) Hb). by rewrite IH.
Qed.



(** A skill that contains a comma does not survive: it comes back as two. *)
Example skill_with_comma :
  skillEntries (split "," (join ", " ["Java, Kotlin"; "Teaching"]))
  = ["Java"; "Kotlin"; "Teaching"].
Proof. vm_compute. reflexivity. Qed.

(** *** The shape of the buffer *)

Lemma mapUserToForm_shape (user : Value) :
  (field (mapUserToForm user) "role" = JStr "volunteer"
   \/ field (mapUserToForm user) "role" = JStr "ngo")
  /\ isString (field (mapUserToForm user) "skills").
Proof.
  split.
  - rewrite mapUserToForm_role.
    destruct (normalizeRole_cases (getProp user "role")) as [-> | ->]; auto.
  - rewrite mapUserToForm_skills. destruct (getProp user "skills"); by eexists.
Qed.

(** The buffer a submission leaves is the buffer it found or a mapped user. *)
Lemma submit_form (env : SubmitEnv) (st : State) :
  form (exec (handleSubmit env) st) = form st
  \/ exists user, form (exec (handleSubmit env) st) = mapUserToForm user.
Proof.
  destruct (submittedPayload st) as [p|e] eqn:Hp.
  - destruct (putOutcome env) as [|request] eqn:Hput.
    + left. by rewrite (submit_network_error env st p Hp Hput).
    + destruct ((200 <=? status request)%Z && (status request <? 300)%Z) eqn:Hstatus.
      * apply (proj1 (successStatus_dec request)) in Hstatus.
        rewrite (submit_accepted env st p request Hp Hput Hstatus).
        cbn [saved form]. unfold finalBuffer, bufferAfterSave.
        destruct (reconcileOutcome env) as [reason|response].
        -- destruct (parsedText request) as [body|]; [|by left].
           destruct (nonEmpty (responseText request) && wellFormed body); [right|left];
             by eauto.
        -- destruct (ok response && wellFormed (readResponseJson response)); [by eauto|].
           destruct (parsedText request) as [body|]; [|by left].
           destruct (nonEmpty (responseText request) && wellFormed body); [right|left];
             by eauto.
      * apply (proj2 (successStatus_dec request)) in Hstatus.
        destruct (submit_rejected env st p request Hp Hput Hstatus) as (message & -> & _).
        by left.
  - left. by rewrite (submit_throws env st e Hp).
Qed.

(** What an operation does to the buffer: nothing, or it writes a string to a
    field other than the role, or it replaces the buffer by a mapped user. *)
Lemma run_form (op : Op) (st : State) :
  possible op ->
  form (run op st) = form st
  \/ (exists k v, k <> "role" /\ form (run op st) = <[k := JStr v]> (form st))
  \/ (exists user, form (run op st) = mapUserToForm user).
Proof.
  intros Hop.
  destruct op as [mounted outcome|name value|target|target| | |env]; cbn [run].
  - destruct st, mounted, outcome as [reason|response]; run_page;
      try (left; reflexivity);
      (destruct (ok response); cbn [negb]; run_page;
       [destruct (negb (truthy (readResponseJson response))
                  || negb (typeofObject (readResponseJson response))); run_page
       |destruct (isHtmlResponse response); run_page]);
      first [left; reflexivity | right; right; eexists; reflexivity].
  - cbn [possible] in Hop. right. left. exists name, value. split; [|by destruct st].
    intros ->. unfold inputNames in Hop. simpl in Hop.
    repeat (destruct Hop as [Hop|Hop]; [discriminate Hop|]); destruct Hop.
  - left. destruct st. run_page. destruct (head (files target)) as [file|]; run_page;
      [|reflexivity].
    destruct (isAllowedDocument file); reflexivity.
  - left. destruct st. run_page. destruct (head (files target)) as [file|]; run_page;
      [|reflexivity].
    destruct (isAllowedDocument file); reflexivity.
  - right. left. exists "volunteerDocumentUrl", "". split; [discriminate|by destruct st].
  - right. left. exists "ngoProofDocumentUrl", "". split; [discriminate|by destruct st].
  - destruct (submit_form env st) as [H|H]; auto.
Qed.



(** *** A user of the expected type *)



(** *** After a removal, after a choice *)

(** X13: once a document is removed, its Remove File button is gone, no current
    file is shown and the input is labelled Upload File again; removing
    again changes nothing, the other slot and its button are as they were,
    and the two removals commute. *)
Theorem removal_hides_button (st : State) :
  let v := exec handleRemoveVolunteerFile st in
  let n := exec handleRemoveNgoProofFile st in
  (volunteerRemoveRendered v = false
   /\ showsCurrentFile (reference (volunteerSlot v)) = false
   /\ uploadLabel (reference (volunteerSlot v)) = "Upload File"
   /\ exec handleRemoveVolunteerFile v = v
   /\ ngoSlot v = ngoSlot st /\ ngoRemoveRendered v = ngoRemoveRendered st)
  /\ (ngoRemoveRendered n = false
      /\ showsCurrentFile (reference (ngoSlot n)) = false
      /\ uploadLabel (reference (ngoSlot n)) = "Upload File"
      /\ exec handleRemoveNgoProofFile n = n
      /\ volunteerSlot n = volunteerSlot st
      /\ volunteerRemoveRendered n = volunteerRemoveRendered st)
  /\ exec handleRemoveNgoProofFile v = exec handleRemoveVolunteerFile n.
Proof.
  cbv zeta. destruct st as [form0 ? ? ? ? ? ? vf nf rv rn].
  unfold volunteerRemoveRendered, ngoRemoveRendered, showsCurrentFile, uploadLabel.
  run_page.
  rewrite !field_insert_eq.
  rewrite !(field_insert_ne _ "volunteerDocumentUrl" "ngoProofDocumentUrl") by discriminate.
  rewrite !(field_insert_ne _ "ngoProofDocumentUrl" "volunteerDocumentUrl") by discriminate.
  rewrite !(field_insert_ne _ "volunteerDocumentUrl" "role") by discriminate.
  rewrite !(field_insert_ne _ "ngoProofDocumentUrl" "role") by discriminate.
  rewrite !insert_insert_eq.
  rewrite (insert_insert_ne form0 "volunteerDocumentUrl" "ngoProofDocumentUrl")
    by discriminate.
  change (truthy (JStr "")) with false.
  change (bool_decide (is_Some (@None File))) with false.
  rewrite !andb_false_r.
  repeat split; reflexivity.
Qed.

(** The entries of a name that the common part of a payload cannot have. *)
Lemma getAll_parts (form : Form) (vf nf : option File) (rv rn : bool) (p : FormData)
    (name : string) :
  buildFormData form vf nf rv rn = Ok p ->
  ~ In name commonNames ->
  exists vpart npart,
    getAll p name = (getAll vpart name ++ getAll npart name)%list
    /\ (if strictEqString (field form "role") "volunteer"
        then exists skills, vpart = volunteerPart skills vf rv
        else vpart = [])
    /\ (if strictEqString (field form "role") "ngo"
        then exists a b c d e f, npart = ngoPart a b c d e f nf rn
        else npart = []).
Proof.
  intros Hp Hname.
  apply buildFormData_Ok in Hp
    as (fullName & email & phone & bio & address & profileImageUrl & vpart & npart
        & _ & _ & _ & _ & _ & _ & Hv & Hn & ->).
  exists vpart, npart. split; [|split].
  - unfold getAll. rewrite !List.filter_app, !map_app.
    assert (Hcommon : forall entries : FormData,
               Forall (fun entry => In (fst entry) commonNames) entries ->
               List.filter (fun entry : string * Entry => String.eqb (fst entry) name) entries
               = []).
    { intros entries Hall. induction Hall as [|entry rest He _ IH]; [reflexivity|].
      cbn [List.filter]. destruct (String.eqb_spec (fst entry) name) as [<-|_];
        [contradiction|exact IH]. }
    rewrite Hcommon; [reflexivity|].
    repeat (apply List.Forall_cons; [unfold commonNames; simpl; tauto|]).
    apply List.Forall_nil.
  - destruct (strictEqString _ "volunteer"); [|exact Hv].
    destruct Hv as (skills & _ & ->). by eexists.
  - destruct (strictEqString _ "ngo"); [|exact Hn].
    destruct Hn as (a & b & c & d & e & f & _ & _ & _ & _ & _ & _ & ->).
    by exists a, b, c, d, e, f.
Qed.

(** X14: an accepted file is what the next payload of its role carries: the
    volunteer's payload has the chosen file as its only file entry and no
    removeDocument entry, the NGO's payload has it as its only ngoProofFile
    entry and no removeNgoProofDocument entry, whatever file or removal was
    pending before the choice. *)
Theorem accepted_file_is_sent (st : State) (target : FileInput) (file : File) :
  head (files target) = Some file ->
  isAllowedDocument file = true ->
  (field (form st) "role" = JStr "volunteer" ->
   forall p, submittedPayload (exec (handleVolunteerFileChange target) st) = Ok p ->
             getAll p "file" = [Blob file] /\ getAll p "removeDocument" = [])
  /\ (field (form st) "role" = JStr "ngo" ->
      forall p, submittedPayload (exec (handleNgoProofChange target) st) = Ok p ->
                getAll p "ngoProofFile" = [Blob file]
                /\ getAll p "removeNgoProofDocument" = []).
Proof.
  intros Hfile Hallowed. split; intros Hrole p Hp.
  - assert (Hst : exec (handleVolunteerFileChange target) st
                  = {| form := form st; loading := loading st; saving := saving st;
                       uploadProgress := uploadProgress st; error := "";
                       success := success st; toast := toast st;
                       volunteerDocumentFile := Some file; ngoProofFile := ngoProofFile st;
                       removeVolunteerDocument := false;
                       removeNgoProofDocument := removeNgoProofDocument st |}).
    { destruct st. run_page. rewrite Hfile. run_page. rewrite Hallowed. reflexivity. }
    rewrite Hst in Hp. unfold submittedPayload in Hp. cbn [ProfileEditPage.form
      volunteerDocumentFile ngoProofFile removeVolunteerDocument removeNgoProofDocument] in Hp.
    split.
    + destruct (getAll_parts _ _ _ _ _ p "file" Hp) as (vpart & npart & -> & Hv & Hn).
      { unfold commonNames. simpl. intros H.
        repeat (destruct H as [H|H]; [discriminate H|]). destruct H. }
      rewrite Hrole in Hv, Hn. simpl in Hv, Hn. destruct Hv as (skills & ->). subst npart.
      reflexivity.
    + destruct (getAll_parts _ _ _ _ _ p "removeDocument" Hp)
        as (vpart & npart & -> & Hv & Hn).
      { unfold commonNames. simpl. intros H.
        repeat (destruct H as [H|H]; [discriminate H|]). destruct H. }
      rewrite Hrole in Hv, Hn. simpl in Hv, Hn. destruct Hv as (skills & ->). subst npart.
      reflexivity.
  - assert (Hst : exec (handleNgoProofChange target) st
                  = {| form := form st; loading := loading st; saving := saving st;
                       uploadProgress := uploadProgress st; error := "";
                       success := success st; toast := toast st;
                       volunteerDocumentFile := volunteerDocumentFile st;
                       ngoProofFile := Some file;
                       removeVolunteerDocument := removeVolunteerDocument st;
                       removeNgoProofDocument := false |}).
    { destruct st. run_page. rewrite Hfile. run_page. rewrite Hallowed. reflexivity. }
    rewrite Hst in Hp. unfold submittedPayload in Hp. cbn [ProfileEditPage.form
      volunteerDocumentFile ngoProofFile removeVolunteerDocument removeNgoProofDocument] in Hp.
    split.
    + destruct (getAll_parts _ _ _ _ _ p "ngoProofFile" Hp)
        as (vpart & npart & -> & Hv & Hn).
      { unfold commonNames. simpl. intros H.
        repeat (destruct H as [H|H]; [discriminate H|]). destruct H. }
      rewrite Hrole in Hv, Hn. simpl in Hv, Hn.
      destruct Hn as (a & b & c & d & e & f & ->). subst vpart. reflexivity.
    + destruct (getAll_parts _ _ _ _ _ p "removeNgoProofDocument" Hp)
        as (vpart & npart & -> & Hv & Hn).
      { unfold commonNames. simpl. intros H.
        repeat (destruct H as [H|H]; [discriminate H|]). destruct H. }
      rewrite Hrole in Hv, Hn. simpl in Hv, Hn.
      destruct Hn as (a & b & c & d & e & f & ->). subst vpart. reflexivity.
Qed.

Lemma accepted_file_is_sent_witness :
  match submittedPayload
          (exec (handleVolunteerFileChange resumePdf)
             (exec handleRemoveVolunteerFile volunteerWithDocument)) with
  | Ok p => getAll p "file" = map Blob (files resumePdf) /\ getAll p "removeDocument" = []
  | Throw _ => False
  end.
Proof.
  destruct (submittedPayload _) as [p|e] eqn:E.
  - destruct (head (files resumePdf)) as [file|] eqn:Hfile; [|discriminate Hfile].
    exact (proj1 (accepted_file_is_sent
                    (exec handleRemoveVolunteerFile volunteerWithDocument) resumePdf
                    _ eq_refl eq_refl) eq_refl p E).
  - vm_compute in E. discriminate E.
Defined.

(** *** Requests and links *)

(** X15: the load and the save go to the same URL, the path after the API base;
    the save carries no Content-Type header (the browser sets the multipart
    one), the load says JSON; both carry the Authorization header with the
    stored token exactly when there is a non-empty token, and no other
    header. *)
Theorem request_headers (base : string) (token : option string) :
  url (readRequest base token) = base ++ "/users/me"
  /\ url (saveRequest base token) = url (readRequest base token)
  /\ (forall v, ~ In ("Content-Type", v) (headers (saveRequest base token)))
  /\ headers (readRequest base token)
     = (("Content-Type", "application/json") :: headers (saveRequest base token))
  /\ (forall v, In ("Authorization", v) (headers (saveRequest base token))
                <-> exists t, token = Some t /\ t <> "" /\ v = "Bearer " ++ t)
  /\ (forall k v, In (k, v) (headers (saveRequest base token)) -> k = "Authorization").
Proof.
  unfold readRequest, saveRequest, buildApiUrl, getAuthHeaders. cbn [url headers].
  split; [by destruct base|]. split; [reflexivity|].
  destruct token as [[|c t]|]; cbn [default nonEmpty app].
  - split; [intros v []|]. split; [reflexivity|]. split; [|intros k v []].
    intros v. split; [intros [] | intros (t' & Ht & Hne & _)].
    injection Ht as <-. by apply Hne.
  - split; [intros v [H|[]]; discriminate H|]. split; [reflexivity|]. split.
    + intros v. split.
      * intros [H|[]]. injection H as <-. exists (String c t). by repeat split.
      * intros (t' & Ht & _ & ->). injection Ht as <-. by left.
    + intros k v [H|[]]. by injection H as <- _.
  - split; [intros v []|]. split; [reflexivity|]. split; [|intros k v []].
    intros v. split; [intros [] | intros (t' & Ht & _)]. discriminate Ht.
Qed.

Lemma dropLast_app (s : string) (c : ascii) : dropLast (s ++ String c EmptyString) = s.
Proof.
  induction s as [|x s IH]; [reflexivity|].
  change (String x s ++ String c EmptyString) with (String x (s ++ String c EmptyString)).
  cbn [dropLast]. rewrite IH. by destruct s.
Qed.


(** X17: the link to a document stored under a path, when an API base is
    configured: the base and the path joined by exactly one slash, a slash
    that ends the base or begins the path being that one. *)
Theorem document_href_join (base path : string) :
  base <> "" -> path <> "" -> isHttpUrl path = false ->
  exists b rest,
    ((base = b /\ endsWith base "/" = false) \/ base = b ++ "/")
    /\ ((path = rest /\ startsWith path "/" = false) \/ path = "/" ++ rest)
    /\ buildDocumentHref base (JStr path) = Ok (JStr (b ++ "/" ++ rest)).
Proof.
  intros Hbase Hpath Hhttp. unfold buildDocumentHref.
  cbn [truthy toString]. rewrite (proj2 (nonEmpty_true path) Hpath), Hhttp.
  rewrite (proj2 (nonEmpty_true base) Hbase). cbn [negb callStartsWith mbind Result_bind].
  assert (Hb : exists b, ((base = b /\ endsWith base "/" = false) \/ base = b ++ "/")
                         /\ (if endsWith base "/" then dropLast base else base) = b).
  { destruct (endsWith base "/") eqn:He.
    - apply endsWith_spec in He as [pre ->]. exists pre. split; [by right|].
      apply dropLast_app.
    - exists base. split; [by left | reflexivity]. }
  destruct Hb as (b & Hb & ->). exists b.
  destruct (startsWith path "/") eqn:Hs.
  - apply startsWith_spec in Hs as [rest ->]. exists rest.
    split; [exact Hb|]. split; [by right | reflexivity].
  - exists path. split; [exact Hb|]. split; [by left | reflexivity].
Qed.

Lemma document_href_join_witness :
  exists b rest,
    (("https://api.example.org/" = b /\ endsWith "https://api.example.org/" "/" = false)
     \/ "https://api.example.org/" = b ++ "/")
    /\ (("/uploads/asha-cv.pdf" = rest /\ startsWith "/uploads/asha-cv.pdf" "/" = false)
        \/ "/uploads/asha-cv.pdf" = "/" ++ rest)
    /\ buildDocumentHref "https://api.example.org/" (JStr "/uploads/asha-cv.pdf")
       = Ok (JStr (b ++ "/" ++ rest)).
Proof.
  apply document_href_join; [discriminate | discriminate | reflexivity].
Defined.

(** A base with a slash at its end and a path with one at its start, and
    neither: one slash between them. *)
Example document_href_examples :
  buildDocumentHref "https://api.example.org/" (JStr "/uploads/asha-cv.pdf")
  = Ok (JStr "https://api.example.org/uploads/asha-cv.pdf")
  /\ buildDocumentHref "https://api.example.org" (JStr "uploads/asha-cv.pdf")
     = Ok (JStr "https://api.example.org/uploads/asha-cv.pdf")
  /\ buildDocumentHref "https://api.example.org" (JStr "HTTPS://cdn.example.org/cv.pdf")
     = Ok (JStr "HTTPS://cdn.example.org/cv.pdf").
Proof. vm_compute. repeat split. Qed.

(** *** File sizes *)

Lemma toFixed1_kb (b : N) :
  toFixed1 (QArith_base.Qdiv (QArith_base.inject_Z (Z.of_N b)) (QArith_base.inject_Z 1024))
  = tenths ((20 * b + 1024) / 2048).
Proof.
  unfold toFixed1, tenths. cbv zeta.
  replace (Z.to_N _) with ((20 * b + 1024) / 2048)%N; [reflexivity|].
  cbv beta iota delta [Qround.Qfloor QArith_base.Qplus QArith_base.Qmult QArith_base.Qdiv
                         QArith_base.Qinv QArith_base.inject_Z
                         QArith_base.Qnum QArith_base.Qden].
  apply N2Z.inj. rewrite N2Z.inj_div, Z2N.id.
  - f_equal; lia.
  - apply Z.div_pos; lia.
Qed.

Lemma toFixed1_mb (b : N) :
  toFixed1 (QArith_base.Qdiv
              (QArith_base.Qdiv (QArith_base.inject_Z (Z.of_N b)) (QArith_base.inject_Z 1024))
              (QArith_base.inject_Z 1024))
  = tenths ((20 * b + 1048576) / 2097152).
Proof.
  unfold toFixed1, tenths. cbv zeta.
  replace (Z.to_N _) with ((20 * b + 1048576) / 2097152)%N; [reflexivity|].
  cbv beta iota delta [Qround.Qfloor QArith_base.Qplus QArith_base.Qmult QArith_base.Qdiv
                         QArith_base.Qinv QArith_base.inject_Z
                         QArith_base.Qnum QArith_base.Qden].
  apply N2Z.inj. rewrite N2Z.inj_div, Z2N.id.
  - f_equal; lia.
  - apply Z.div_pos; lia.
Qed.

Lemma kb_reaches_1024 (b : N) :
  QArith_base.Qle_bool (QArith_base.inject_Z 1024)
    (QArith_base.Qdiv (QArith_base.inject_Z (Z.of_N b)) (QArith_base.inject_Z 1024))
  = (1048576 <=? b)%N.
Proof.
  cbv beta iota delta [QArith_base.Qle_bool QArith_base.Qmult QArith_base.Qdiv
                         QArith_base.Qinv QArith_base.inject_Z
                         QArith_base.Qnum QArith_base.Qden].
  destruct (N.leb_spec 1048576 b); [apply Z.leb_le | apply Z.leb_gt]; lia.
Qed.

(** What [formatFileSize] writes in each range. *)
Lemma formatFileSize_ranges (b : N) :
  formatFileSize b
  = if (b =? 0)%N then EmptyString
    else if (b <? 1024)%N then decimal b ++ " B"
    else if (b <? 1048576)%N then tenths ((20 * b + 1024) / 2048) ++ " KB"
    else tenths ((20 * b + 1048576) / 2097152) ++ " MB".
Proof.
  unfold formatFileSize. cbv zeta.
  rewrite kb_reaches_1024, toFixed1_kb, toFixed1_mb.
  destruct (b =? 0)%N; [reflexivity|]. destruct (b <? 1024)%N; [reflexivity|].
  rewrite N.ltb_antisym. by destruct (1048576 <=? b)%N.
Qed.

Lemma append_nonempty (s t : string) : t <> EmptyString -> s ++ t <> EmptyString.
Proof. intros Ht. destruct s; [exact Ht | discriminate]. Qed.

(** X18: the size of a file on the page.  Nothing is written for an empty file
    and only for it; a size below 1024 is written in bytes; a size below
    1024 * 1024 in KB and a larger one in MB, with one decimal: the number of
    tenths is the nearest one to the exact quotient, the larger of two that
    are as near. *)
Theorem file_size_text (b : N) :
  (formatFileSize b = EmptyString <-> b = 0%N)
  /\ ((0 < b < 1024)%N -> formatFileSize b = decimal b ++ " B")
  /\ ((1024 <= b < 1048576)%N ->
      exists n, (1024 * n <= 10 * b + 512 < 1024 * (n + 1))%N
                /\ formatFileSize b = tenths n ++ " KB")
  /\ ((1048576 <= b)%N ->
      exists n, (1048576 * n <= 10 * b + 524288 < 1048576 * (n + 1))%N
                /\ formatFileSize b = tenths n ++ " MB").
Proof.
  rewrite formatFileSize_ranges. split; [|split; [|split]].
  - destruct (N.eqb_spec b 0) as [->|Hne]; [by split|].
    split; [|by intros ->]. intros H. exfalso. revert H.
    destruct (b <? 1024)%N; [|destruct (b <? 1048576)%N];
      by apply append_nonempty.
  - intros [Hpos Hlt].
    destruct (N.eqb_spec b 0) as [->|_]; [lia|].
    by rewrite (proj2 (N.ltb_lt b 1024) Hlt).
  - intros [Hge Hlt].
    destruct (N.eqb_spec b 0) as [->|_]; [lia|].
    rewrite (proj2 (N.ltb_ge b 1024) Hge), (proj2 (N.ltb_lt b 1048576) Hlt).
    exists ((20 * b + 1024) / 2048)%N. split; [|reflexivity].
    pose proof (N.Div0.div_mod (20 * b + 1024) 2048) as Hdm.
    pose proof (N.mod_upper_bound (20 * b + 1024) 2048 ltac:(discriminate)) as Hm.
    revert Hdm Hm.
    generalize ((20 * b + 1024) / 2048)%N, ((20 * b + 1024) mod 2048)%N. lia.
  - intros Hge.
    destruct (N.eqb_spec b 0) as [->|_]; [lia|].
    rewrite (proj2 (N.ltb_ge b 1024) ltac:(lia)), (proj2 (N.ltb_ge b 1048576) Hge).
    exists ((20 * b + 1048576) / 2097152)%N. split; [|reflexivity].
    pose proof (N.Div0.div_mod (20 * b + 1048576) 2097152) as Hdm.
    pose proof (N.mod_upper_bound (20 * b + 1048576) 2097152 ltac:(discriminate)) as Hm.
    revert Hdm Hm.
    generalize ((20 * b + 1048576) / 2097152)%N, ((20 * b + 1048576) mod 2097152)%N. lia.
Qed.

(** X19: the last 51 sizes below 1024 * 1024 bytes are written as 1024.0 KB:
    the switch to MB compares the quotient before it is rounded. *)
Theorem file_size_1024_kb (b : N) :
  (1048525 <= b < 1048576)%N -> formatFileSize b = "1024.0 KB".
Proof.
  intros [Hge Hlt]. rewrite formatFileSize_ranges.
  destruct (N.eqb_spec b 0) as [->|_]; [lia|].
  rewrite (proj2 (N.ltb_ge b 1024) ltac:(lia)), (proj2 (N.ltb_lt b 1048576) Hlt).
  replace ((20 * b + 1024) / 2048)%N with 10240%N; [reflexivity|].
  apply N.div_unique with (r := (20 * b + 1024 - 2048 * 10240)%N); lia.
Qed.

Lemma file_size_1024_kb_witness : formatFileSize 1048575 = "1024.0 KB".
Proof. apply file_size_1024_kb. lia. Defined.

Example file_size_examples :
  formatFileSize 48211 = "47.1 KB" /\ formatFileSize 1023 = "1023 B"
  /\ formatFileSize 1024 = "1.0 KB" /\ formatFileSize 1588 = "1.6 KB"
  /\ formatFileSize 1048576 = "1.0 MB" /\ formatFileSize 5242880 = "5.0 MB".
Proof. vm_compute. repeat split. Qed.

(** *** File names *)

Lemma append_assoc (a b c : string) : (a ++ b) ++ c = a ++ (b ++ c).
Proof. induction a as [|x a IH]; [reflexivity|]. simpl. by rewrite IH. Qed.

Lemma pop_In (l : list string) (x : string) : pop l = Some x -> In x l.
Proof.
  induction l as [|a l IH]; [discriminate|]. cbn [pop].
  destruct l as [|b l'].
  - intros H. injection H as ->. by left.
  - intros H. right. exact (IH H).
Qed.

Lemma pop_nonempty (l : list string) : l <> [] -> exists x, pop l = Some x.
Proof.
  induction l as [|a l IH]; [contradiction|]. intros _. cbn [pop].
  destruct l as [|b l']; [by eexists|]. apply IH. discriminate.
Qed.

(** The text joined from pieces is its last piece, or ends with the
    separator and the last piece. *)
Lemma join_pop (sep : ascii) (l : list string) (x : string) :
  pop l = Some x ->
  join (String sep EmptyString) l = x
  \/ exists pre, join (String sep EmptyString) l = pre ++ String sep x.
Proof.
  induction l as [|a l IH]; [discriminate|]. destruct l as [|b l'].
  - intros H. injection H as ->. by left.
  - intros H. change (pop (a :: b :: l')) with (pop (b :: l')) in H.
    rewrite join_cons by discriminate. right.
    destruct (IH H) as [-> | [pre ->]].
    + by exists a.
    + exists (a ++ String sep pre).
      change (String sep EmptyString ++ pre ++ String sep x)
        with (String sep (pre ++ String sep x)).
      by rewrite append_assoc.
Qed.

(** The text after the last slash of a text. *)
Lemma pop_split (sep : ascii) (s : string) :
  exists x, pop (split sep s) = Some x /\ freeOf sep x
            /\ (s = x \/ exists pre, s = pre ++ String sep x).
Proof.
  destruct (pop_nonempty (split sep s) (split_nonempty sep s)) as [x Hx].
  exists x. split; [exact Hx|]. split.
  - pose proof (split_free sep s) as Hfree. rewrite List.Forall_forall in Hfree.
    apply Hfree, pop_In, Hx.
  - pose proof (join_pop sep _ _ Hx) as H. by rewrite join_split in H.
Qed.

(** The last non-empty piece of a list of pieces. *)
Lemma pop_filter_nonEmpty (l : list string) :
  match pop (List.filter nonEmpty l) with
  | Some x => x <> EmptyString
              /\ exists before after, l = (before ++ x :: after)%list
                                      /\ Forall (fun piece => piece = EmptyString) after
  | None => Forall (fun piece => piece = EmptyString) l
  end.
Proof.
  induction l as [|a l IH]; [constructor|]. cbn [List.filter].
  destruct a as [|c r]; cbn [nonEmpty].
  - destruct (pop (List.filter nonEmpty l)) as [x|].
    + destruct IH as (Hx & before & after & -> & Hafter). split; [exact Hx|].
      by exists (EmptyString :: before), after.
    + by constructor.
  - destruct (List.filter nonEmpty l) as [|b m] eqn:Hm.
    + cbn [pop] in *. split; [discriminate|]. by exists [], l.
    + change (pop (String c r :: b :: m)) with (pop (b :: m)).
      destruct (pop (b :: m)) as [x|] eqn:Hpop.
      * destruct IH as (Hx & before & after & -> & Hafter). split; [exact Hx|].
        by exists (String c r :: before), after.
      * destruct (pop_nonempty (b :: m) ltac:(discriminate)) as [x Hx]. congruence.
Qed.


(** X21: the name of a document whose reference is an absolute URL: the decoding
    of the last non-empty segment of the path, of the word document when the
    path has none. *)
Theorem filename_of_url (pathnameOf decodeURIComponent : string -> option string)
    (urlOrName : Value) (pathname decoded : string) :
  truthy urlOrName = true ->
  pathnameOf (toString urlOrName) = Some pathname ->
  decodeURIComponent (pathName pathname) = Some decoded ->
  extractFilename pathnameOf decodeURIComponent urlOrName = decoded
  /\ pathName pathname <> EmptyString
  /\ ((exists before after,
         split "/" pathname = (before ++ pathName pathname :: after)%list
         /\ Forall (fun piece => piece = EmptyString) after)
      \/ (pathName pathname = "document"
          /\ Forall (fun piece => piece = EmptyString) (split "/" pathname))).
Proof.
  intros Htruthy Hpath Hdecode. split; [|split].
  - unfold extractFilename. rewrite Htruthy, Hpath. cbn [negb]. cbv zeta.
    fold (pathName pathname). by rewrite Hdecode.
  - unfold pathName. by destruct (pop _) as [[|c r]|].
  - unfold pathName. pose proof (pop_filter_nonEmpty (split "/" pathname)) as H.
    destruct (pop _) as [[|c r]|].
    + by destruct H as [H _].
    + left. destruct H as (_ & before & after & H1 & H2). by exists before, after.
    + by right.
Qed.


Lemma filename_of_url_witness :
  extractFilename (pathnameAt "https://files.example.org") decodePlain
    (JStr "https://files.example.org/uploads/asha-cv.pdf/") = "asha-cv.pdf".
Proof.
  exact (proj1 (filename_of_url (pathnameAt "https://files.example.org") decodePlain
                  (JStr "https://files.example.org/uploads/asha-cv.pdf/")
                  "/uploads/asha-cv.pdf/" "asha-cv.pdf" eq_refl eq_refl eq_refl)).
Defined.

Example filename_examples :
  let name := extractFilename (pathnameAt "https://files.example.org") decodePlain in
  name (JStr "/uploads/asha-cv.pdf") = "asha-cv.pdf"
  /\ name (JStr "uploads/") = "document"
  /\ name (JStr "https://files.example.org/") = "document"
  /\ name (JStr "https://files.example.org/docs/100%.pdf") = "100%.pdf"
  /\ name (JStr "") = "" /\ name JNull = "".
Proof. vm_compute. repeat split. Qed.

(** *** What is sent of the common fields *)

(** X22: each of fullName, email, phone, bio, address and profileImageUrl is
    sent once, as the text of the buffer without the white space before and
    after it, and what is sent has no white space at either end; the role
    and the date of birth are sent once as they are in the buffer, white
    space included. *)
Theorem payload_text_trimmed (form : Form) (vf nf : option File) (rv rn : bool)
    (p : FormData) :
  buildFormData form vf nf rv rn = Ok p ->
  (forall name, In name trimmedNames ->
     exists typed sent before after,
       field form name = JStr typed /\ getAll p name = [Text sent]
       /\ typed = before ++ sent ++ after
       /\ blank before /\ blank after /\ tight sent)
  /\ getAll p "dateOfBirth" = [Text (toString (field form "dateOfBirth"))]
  /\ getAll p "role" = [Text (toString (field form "role"))].
Proof.
  intros Hp.
  apply buildFormData_Ok in Hp
    as (fullName & email & phone & bio & address & profileImageUrl & vpart & npart
        & HfullName & Hemail & Hphone & Hbio & Haddress & Himage & Hv & Hn & ->).
  assert (Hrest : forall name, In name commonNames ->
                    getAll (vpart ++ npart)%list name = []).
  { intros name Hname. unfold getAll. rewrite List.filter_app, map_app.
    assert (Hvp : getAll vpart name = []).
    { destruct (strictEqString _ "volunteer"); [|by subst vpart].
      destruct Hv as (skills & _ & ->). unfold commonNames in Hname. simpl in Hname.
      repeat (destruct Hname as [<-|Hname]; [by destruct vf, rv|]). destruct Hname. }
    assert (Hnp : getAll npart name = []).
    { destruct (strictEqString _ "ngo"); [|by subst npart].
      destruct Hn as (a & b & c & d & e & f & _ & _ & _ & _ & _ & _ & ->).
      unfold commonNames in Hname. simpl in Hname.
      repeat (destruct Hname as [<-|Hname]; [by destruct nf, rn|]). destruct Hname. }
    unfold getAll in Hvp, Hnp. by rewrite Hvp, Hnp. }
  assert (Hget : forall name, In name commonNames ->
            forall common : FormData,
              getAll (common ++ vpart ++ npart)%list name = getAll common name).
  { intros name Hname common. unfold getAll at 1. rewrite List.filter_app, map_app.
    fold (getAll common name). fold (getAll (vpart ++ npart)%list name).
    rewrite (Hrest name Hname). by rewrite app_nil_r. }
  split; [|split].
  - intros name Hname. unfold trimmedNames in Hname. simpl in Hname.
    assert (Htrim : forall typed,
              exists before after, typed = before ++ trim typed ++ after
                                   /\ blank before /\ blank after /\ tight (trim typed)).
    { intros typed. destruct (trim_spec typed) as (l & r & H). by exists l, r. }
    repeat (destruct Hname as [<-|Hname];
            [match goal with
             | H : field form ?k = JStr ?typed |- context [field form ?k] =>
                 destruct (Htrim typed) as (before & after & Hsplit & Hb & Ha & Ht);
                 exists typed, (trim typed), before, after;
                 split; [exact H|]; split;
                 [rewrite Hget by (unfold commonNames; simpl; tauto); reflexivity|];
                 split; [exact Hsplit|]; split; [exact Hb|]; split; [exact Ha | exact Ht]
             end|]).
    destruct Hname.
  - rewrite Hget by (unfold commonNames; simpl; tauto). reflexivity.
  - rewrite Hget by (unfold commonNames; simpl; tauto). reflexivity.
Qed.

Lemma payload_text_trimmed_witness :
  match buildFormData paddedNameForm None None false false with
  | Ok p => getAll p "dateOfBirth" = [Text " 1990-04-12"]
  | Throw _ => False
  end.
Proof.
  destruct (buildFormData paddedNameForm None None false false) as [p|e] eqn:E.
  - exact (proj1 (proj2 (payload_text_trimmed paddedNameForm None None false false p E))).
  - vm_compute in E. discriminate E.
Defined.

Example padded_name_sent :
  match buildFormData paddedNameForm None None false false with
  | Ok p => getAll p "fullName" = [Text "Asha Rao"]
            /\ getAll p "dateOfBirth" = [Text " 1990-04-12"]
  | Throw _ => False
  end.
Proof. vm_compute. split; reflexivity. Qed.
